(** * Review validation, normalisation, voting and aggregation

    A shallow embedding of the course-review backend
    ([functions/index.js], the HTTP handlers), of the client-side data
    service ([services/reviewService], imported by [hooks/useReviews.js])
    and of what the hook, the form and the page do with them, together
    with the properties the specification states about them and further
    properties read off the code.

    Modelling conventions.
    - A JavaScript string is the list of its UTF-16 code units, so that
      [.length] is [length] and [.trim()] removes exactly the code units
      ECMAScript calls white space or line terminators.
    - A field of the request body is [None] when it is [undefined] or
      [null] and [Some v] when it carries a value of the type the data
      model gives it (string, integer number, boolean).
    - Numbers are integers of the safe range (below 2^53 in magnitude):
      comparisons, truthiness, sums and [parseInt] then agree with [Z].
      The one operation that leaves the integers, the quotient
      [total / count] of an average, is modelled as the correctly rounded
      binary64 division it is, and checked against the division of the
      machine's floating-point numbers.
    - The document store is a finite map from document ids to records;
      the server time and the id the store generates for a new document
      are parameters of the operation that writes. *)

From Stdlib Require Import ZArith NArith List String Ascii Bool Lia.
From Stdlib Require PrimFloat FloatOps Uint63.
From stdpp Require Import gmap list option sorting.

Local Open Scope Z_scope.

(** ** JavaScript strings *)

Abbreviation jsstring := (list N).

(** An ASCII literal as a JavaScript string. *)
Definition js (s : string) : jsstring :=
  map N_of_ascii (list_ascii_of_string s).

(** ECMAScript [WhiteSpace] and [LineTerminator] code units, the ones
    [String.prototype.trim] strips. *)
Definition is_white_space (c : N) : bool :=
  ((9 <=? c) && (c <=? 13) || (c =? 32) || (c =? 160) || (c =? 5760)
   || (8192 <=? c) && (c <=? 8202) || (c =? 8232) || (c =? 8233)
   || (c =? 8239) || (c =? 8287) || (c =? 12288) || (c =? 65279))%N.

Fixpoint trimStart (s : jsstring) : jsstring :=
  match s with
  | c :: s' => if is_white_space c then trimStart s' else s
  | [] => []
  end.

Definition trimEnd (s : jsstring) : jsstring := rev (trimStart (rev s)).

Definition trim (s : jsstring) : jsstring := trimEnd (trimStart s).

(** ** Truthiness and defaults *)

(** [!!x] on an optional string: false for [undefined], [null] and [""]. *)
Definition truthy_str (x : option jsstring) : bool :=
  match x with
  | Some (_ :: _) => true
  | _ => false
  end.

(** [!!x] on an optional number: false for [undefined], [null] and [0]. *)
Definition truthy_num (x : option Z) : bool :=
  match x with
  | Some n => negb (n =? 0)
  | None => false
  end.

(** [!!x] on an optional boolean. *)
Definition truthy_bool (x : option bool) : bool :=
  match x with
  | Some b => b
  | None => false
  end.

(** [x || ""] *)
Definition or_empty (x : option jsstring) : jsstring :=
  match x with
  | Some s => s
  | None => []
  end.

(** [parseInt(n)] on an integer of the safe range. *)
Definition parseInt (n : Z) : Z := n.

(** ** The request body of a submission ([reviewData]) *)

Module reviewData.
Record t := mk {
  courseCode : option jsstring;
  courseName : option jsstring;
  collegeCode : option jsstring;
  subjectCode : option jsstring;
  courseNumber : option jsstring;
  rating : option Z;
  reviewText : option jsstring;
  difficultyRating : option Z;
  workloadRating : option Z;
  profHelpfulnessRating : option Z;
  semesterTaken : option jsstring;
  authorName : option jsstring;
  authorEmail : option jsstring;
  isAnonymous : option bool
}.
End reviewData.

(** ** The persisted record ([reviewToSubmit], a document of "reviews") *)

Module Review.
Record t := mk {
  courseCode : jsstring;
  courseName : jsstring;
  collegeCode : jsstring;
  subjectCode : jsstring;
  courseNumber : jsstring;
  rating : Z;
  reviewText : jsstring;
  difficultyRating : option Z;
  workloadRating : option Z;
  profHelpfulnessRating : option Z;
  semesterTaken : jsstring;
  authorEmail : option jsstring;
  isAnonymous : bool;
  authorName : option jsstring;
  createdAt : Z;
  updatedAt : Z;
  verified : bool;
  helpfulVotes : Z;
  totalVotes : Z;
  reportedCount : Z
}.
End Review.

(** ** The document store *)

Abbreviation docid := (list N).
Abbreviation store := (gmap docid Review.t).

(** ** Results *)

(** What a handler answers: [res.status(s).json(body)] or
    [res.status(s).json({error: msg})]. *)
Inductive http (A : Type) : Type :=
| Json (status : Z) (body : A)
| HttpError (status : Z) (error : string).
Arguments Json {A} status body.
Arguments HttpError {A} status error.

(** What an [async] function of the client service settles to. *)
Inductive promise (A : Type) : Type :=
| Resolved (value : A)
| Rejected (message : string).
Arguments Resolved {A} value.
Arguments Rejected {A} message.

(** The error taxonomy of the specification. *)
Inductive error_kind : Set :=
| MissingField
| InvalidRating
| InvalidReviewText
| NotFound
| MethodNotAllowed
| StoreFailure.

Definition http_kind (status : Z) (error : string) : error_kind :=
  if status =? 404 then NotFound
  else if status =? 405 then MethodNotAllowed
  else if status =? 400 then
    if String.eqb error "rating must be between 1 and 5" then InvalidRating
    else if String.eqb error
              "reviewText is required and must be at least 20 characters"
         then InvalidReviewText
    else MissingField
  else StoreFailure.

Definition message_kind (message : string) : error_kind :=
  if String.eqb message
       "Missing required fields: courseCode, rating, or reviewText"
  then MissingField
  else if String.eqb message "Rating must be between 1 and 5"
  then InvalidRating
  else if String.eqb message "Review text must be at least 20 characters"
  then InvalidReviewText
  else StoreFailure.

(** The error kind of an answer, [None] for a success. *)
Definition kind_of_http {A} (r : http A) : option error_kind :=
  match r with
  | Json _ _ => None
  | HttpError s e => Some (http_kind s e)
  end.

Definition kind_of_promise {A} (p : promise A) : option error_kind :=
  match p with
  | Resolved _ => None
  | Rejected m => Some (message_kind m)
  end.

(** ** Store primitives (the Firestore client, an external collaborator)

    [add] inserts under the id the store generates; [update] applies a
    change to an existing document and fails when there is none, which is
    how Firestore's [update]/[updateDoc] behave. *)

Definition store_add (newId : docid) (r : Review.t) (db : store) : store :=
  <[newId := r]> db.

Definition store_update (id : docid) (f : Review.t -> Review.t) (db : store)
  : option store :=
  match db !! id with
  | Some r => Some (<[id := f r]> db)
  | None => None
  end.

(** [{helpfulVotes: increment(1), totalVotes: increment(1),
      updatedAt: serverTimestamp()}] *)
Definition helpful_update (now : Z) (r : Review.t) : Review.t :=
  {| Review.courseCode := Review.courseCode r;
     Review.courseName := Review.courseName r;
     Review.collegeCode := Review.collegeCode r;
     Review.subjectCode := Review.subjectCode r;
     Review.courseNumber := Review.courseNumber r;
     Review.rating := Review.rating r;
     Review.reviewText := Review.reviewText r;
     Review.difficultyRating := Review.difficultyRating r;
     Review.workloadRating := Review.workloadRating r;
     Review.profHelpfulnessRating := Review.profHelpfulnessRating r;
     Review.semesterTaken := Review.semesterTaken r;
     Review.authorEmail := Review.authorEmail r;
     Review.isAnonymous := Review.isAnonymous r;
     Review.authorName := Review.authorName r;
     Review.createdAt := Review.createdAt r;
     Review.updatedAt := now;
     Review.verified := Review.verified r;
     Review.helpfulVotes := Review.helpfulVotes r + 1;
     Review.totalVotes := Review.totalVotes r + 1;
     Review.reportedCount := Review.reportedCount r |}.

(** [{reportedCount: increment(1), updatedAt: serverTimestamp()}] *)
Definition report_update (now : Z) (r : Review.t) : Review.t :=
  {| Review.courseCode := Review.courseCode r;
     Review.courseName := Review.courseName r;
     Review.collegeCode := Review.collegeCode r;
     Review.subjectCode := Review.subjectCode r;
     Review.courseNumber := Review.courseNumber r;
     Review.rating := Review.rating r;
     Review.reviewText := Review.reviewText r;
     Review.difficultyRating := Review.difficultyRating r;
     Review.workloadRating := Review.workloadRating r;
     Review.profHelpfulnessRating := Review.profHelpfulnessRating r;
     Review.semesterTaken := Review.semesterTaken r;
     Review.authorEmail := Review.authorEmail r;
     Review.isAnonymous := Review.isAnonymous r;
     Review.authorName := Review.authorName r;
     Review.createdAt := Review.createdAt r;
     Review.updatedAt := now;
     Review.verified := Review.verified r;
     Review.helpfulVotes := Review.helpfulVotes r;
     Review.totalVotes := Review.totalVotes r;
     Review.reportedCount := Review.reportedCount r + 1 |}.

(** The query [where("courseCode", "==", courseCode)]: the matching
    documents, each with its id. *)
Definition where_courseCode (courseCode : jsstring) (db : store)
  : list (docid * Review.t) :=
  filter (λ kv, Review.courseCode kv.2 = courseCode) (map_to_list db).

(** [orderBy("helpfulVotes", "desc")] *)
Definition helpfulVotes_desc (x y : docid * Review.t) : Prop :=
  Review.helpfulVotes y.2 <= Review.helpfulVotes x.2.

#[global] Instance helpfulVotes_desc_dec x y :
  Decision (helpfulVotes_desc x y) :=
  decide (Review.helpfulVotes y.2 <= Review.helpfulVotes x.2).

Definition orderBy_helpfulVotes_desc (l : list (docid * Review.t))
  : list (docid * Review.t) :=
  merge_sort helpfulVotes_desc l.

(** ** Numbers: the quotient of an average and [toFixed(1)]

    A finite binary64 value is kept as a pair [(m, e)] standing for
    [m * 2^e]. For integers [a] and [b > 0] of the safe range, [a / b] in
    JavaScript is the binary64 value nearest to the exact quotient, ties to
    the even significand: the exponent is chosen so that the significand
    has 53 bits, and the scaled quotient is rounded to an integer. *)

Definition round_nearest_even (n d : Z) : Z :=
  let q := n / d in
  let r := n mod d in
  if 2 * r <? d then q
  else if d <? 2 * r then q + 1
  else if Z.even q then q else q + 1.

Definition div64_pos (a b : Z) : Z * Z :=
  let e0 := Z.log2 a - Z.log2 b - 52 in
  let e := if 2 ^ 52 * (b * 2 ^ Z.max 0 e0) <=? a * 2 ^ Z.max 0 (- e0)
           then e0 else e0 - 1 in
  (round_nearest_even (a * 2 ^ Z.max 0 (- e)) (b * 2 ^ Z.max 0 e), e).

(** [a / b] for [b > 0]. *)
Definition div64 (a b : Z) : Z * Z :=
  if a =? 0 then (0, 0)
  else if 0 <? a then div64_pos a b
  else let '(m, e) := div64_pos (- a) b in (- m, e).

(** [x.toFixed(1)] picks the integer [n] for which [n / 10 - x] is closest
    to zero, the larger [n] when there are two, and prints [n] with one
    fractional digit; a negative [x] is printed as [-] followed by the
    digits of [-x]. The result is kept as [n], a number of tenths.
    [parseFloat] reads the digits back, so the value that reaches the
    answer is the decimal [n / 10]. *)
Definition toFixed1_abs (m e : Z) : Z :=
  (20 * m * 2 ^ Z.max 0 e + 2 ^ Z.max 0 (- e)) / 2 ^ (Z.max 0 (- e) + 1).

Definition toFixed1 (x : Z * Z) : Z :=
  let '(m, e) := x in
  if m <? 0 then - toFixed1_abs (- m) e else toFixed1_abs m e.

(** [parseFloat((total / count).toFixed(1))], in tenths. *)
Definition average (total count : Z) : Z := toFixed1 (div64 total count).

(** The same quotient by the binary64 division of the machine, to check
    [div64] against: sign, significand and exponent of [a / b]. *)
Definition primitive_of_Z (a : Z) : PrimFloat.float :=
  if a <? 0 then PrimFloat.opp (PrimFloat.of_uint63 (Uint63.of_Z (- a)))
  else PrimFloat.of_uint63 (Uint63.of_Z a).

Definition primitive_div (a b : Z) : Z * Z :=
  match FloatOps.Prim2SF
          (PrimFloat.div (primitive_of_Z a) (primitive_of_Z b)) with
  | SpecFloat.S754_finite s m e => (if s then - Z.pos m else Z.pos m, e)
  | _ => (0, 0)
  end.

(** [m1 * 2^e1 = m2 * 2^e2] *)
Definition same_value (x y : Z * Z) : bool :=
  let e := Z.min x.2 y.2 in
  x.1 * 2 ^ (x.2 - e) =? y.1 * 2 ^ (y.2 - e).

(** ** Answers of the read operations *)

(** [{reviews, averageRating, totalReviews}]; [averageRating] in tenths. *)
Module ReviewList.
Record t := mk {
  reviews : list (docid * Review.t);
  averageRating : Z;
  totalReviews : Z
}.
End ReviewList.

(** [{courseCode, totalReviews, averageRating, averageDifficulty,
      averageWorkload, averageProfHelpfulness}]; the averages in tenths. *)
Module CourseStats.
Record t := mk {
  courseCode : jsstring;
  totalReviews : Z;
  averageRating : Z;
  averageDifficulty : Z;
  averageWorkload : Z;
  averageProfHelpfulness : Z
}.
End CourseStats.

(** The seven accumulators of [getCourseStats]. *)
Module Totals.
Record t := mk {
  totalRating : Z;
  totalDifficulty : Z;
  totalWorkload : Z;
  totalProfHelpfulness : Z;
  difficultyCount : Z;
  workloadCount : Z;
  profHelpfulnessCount : Z
}.
End Totals.

(** ** The server handlers ([functions/index.js])

    Each handler is modelled from the point where the request method has
    been accepted and the id or course code has been taken from the path. *)

Module Functions.

(** The three guards at the head of [submitReview]; [Some e] is the body
    [{error: e}] of the 400 answer of the first guard that fires. *)
Definition submitReview_guard (d : reviewData.t) : option string :=
  if negb (truthy_str (reviewData.courseCode d)) then
    Some "courseCode is required"%string
  else if negb (truthy_num (reviewData.rating d))
          || match reviewData.rating d with
             | Some r => (r <? 1) || (r >? 5)
             | None => false
             end
  then Some "rating must be between 1 and 5"%string
  else if negb (truthy_str (reviewData.reviewText d))
          || match reviewData.reviewText d with
             | Some s => Z.of_nat (length (trim s)) <? 20
             | None => false
             end
  then Some "reviewText is required and must be at least 20 characters"%string
  else None.

(** [x ? parseInt(x) : null] *)
Definition optional_rating (x : option Z) : option Z :=
  if truthy_num x then parseInt <$> x else None.

(** The object literal [reviewToSubmit]. The three required fields are
    present once the guards have passed; [None] stands for the exception
    [reviewData.reviewText.trim()] raises otherwise. *)
Definition reviewToSubmit (now : Z) (d : reviewData.t) : option Review.t :=
  courseCode ← reviewData.courseCode d;
  rating ← reviewData.rating d;
  reviewText ← reviewData.reviewText d;
  Some
    {| Review.courseCode := courseCode;
       Review.courseName := or_empty (reviewData.courseName d);
       Review.collegeCode := or_empty (reviewData.collegeCode d);
       Review.subjectCode := or_empty (reviewData.subjectCode d);
       Review.courseNumber := or_empty (reviewData.courseNumber d);
       Review.rating := parseInt rating;
       Review.reviewText := trim reviewText;
       Review.difficultyRating :=
         optional_rating (reviewData.difficultyRating d);
       Review.workloadRating :=
         optional_rating (reviewData.workloadRating d);
       Review.profHelpfulnessRating :=
         optional_rating (reviewData.profHelpfulnessRating d);
       Review.semesterTaken := or_empty (reviewData.semesterTaken d);
       Review.authorEmail :=
         if truthy_bool (reviewData.isAnonymous d)
            || negb (truthy_str (reviewData.authorEmail d))
         then None
         else reviewData.authorEmail d;
       Review.isAnonymous :=
         match reviewData.isAnonymous d with
         | Some false => false
         | _ => true
         end;
       Review.authorName :=
         if truthy_bool (reviewData.isAnonymous d)
         then Some (js "Anonymous")
         else if truthy_str (reviewData.authorName d)
              then reviewData.authorName d
              else Some (js "Anonymous");
       Review.createdAt := now;
       Review.updatedAt := now;
       Review.verified := false;
       Review.helpfulVotes := 0;
       Review.totalVotes := 0;
       Review.reportedCount := 0 |}.

(** [exports.submitReview]: the answer carries the new [reviewId]. *)
Definition submitReview (now : Z) (newId : docid) (d : reviewData.t)
    (db : store) : store * http docid :=
  match submitReview_guard d with
  | Some e => (db, HttpError 400 e)
  | None =>
      match reviewToSubmit now d with
      | Some r => (store_add newId r db, Json 201 newId)
      | None => (db, HttpError 500 "Failed to submit review")
      end
  end.

(** [exports.upvoteReview]: the answer carries
    [(helpfulVotes, totalVotes)] read back after the update. *)
Definition upvoteReview (now : Z) (reviewId : docid) (db : store)
  : store * http (Z * Z) :=
  match reviewId with
  | [] => (db, HttpError 400 "reviewId is required")
  | _ :: _ =>
      match db !! reviewId with
      | None => (db, HttpError 404 "Review not found")
      | Some _ =>
          match store_update reviewId (helpful_update now) db with
          | Some db' =>
              match db' !! reviewId with
              | Some u =>
                  (db', Json 200 (Review.helpfulVotes u, Review.totalVotes u))
              | None => (db', HttpError 500 "Failed to upvote review")
              end
          | None => (db, HttpError 500 "Failed to upvote review")
          end
      end
  end.

(** [exports.reportReview] *)
Definition reportReview (now : Z) (reviewId : docid) (db : store)
  : store * http string :=
  match reviewId with
  | [] => (db, HttpError 400 "reviewId is required")
  | _ :: _ =>
      match db !! reviewId with
      | None => (db, HttpError 404 "Review not found")
      | Some _ =>
          match store_update reviewId (report_update now) db with
          | Some db' => (db', Json 200 "Review reported successfully"%string)
          | None => (db, HttpError 500 "Failed to report review")
          end
      end
  end.

(** The body of [getReviews] once the query has answered: the early
    answer on an empty snapshot, else the [forEach] that sums the
    ratings. *)
Definition reviews_answer (snapshot : list (docid * Review.t))
  : ReviewList.t :=
  match snapshot with
  | [] => {| ReviewList.reviews := [];
             ReviewList.averageRating := 0;
             ReviewList.totalReviews := 0 |}
  | _ :: _ =>
      let totalRating :=
        fold_left (λ total doc, total + Review.rating doc.2) snapshot 0 in
      {| ReviewList.reviews := snapshot;
         ReviewList.averageRating :=
           average totalRating (Z.of_nat (length snapshot));
         ReviewList.totalReviews := Z.of_nat (length snapshot) |}
  end.

(** [exports.getReviews] *)
Definition getReviews (courseCode : option jsstring) (db : store)
  : http ReviewList.t :=
  match courseCode with
  | Some ((_ :: _) as c) =>
      Json 200
        (reviews_answer (orderBy_helpfulVotes_desc (where_courseCode c db)))
  | _ => HttpError 400 "courseCode is required"
  end.

(** One turn of the [forEach] of [getCourseStats]. *)
Definition accumulate (acc : Totals.t) (data : Review.t) : Totals.t :=
  {| Totals.totalRating := Totals.totalRating acc + Review.rating data;
     Totals.totalDifficulty :=
       match Review.difficultyRating data with
       | Some v => if v =? 0 then Totals.totalDifficulty acc
                   else Totals.totalDifficulty acc + v
       | None => Totals.totalDifficulty acc
       end;
     Totals.totalWorkload :=
       match Review.workloadRating data with
       | Some v => if v =? 0 then Totals.totalWorkload acc
                   else Totals.totalWorkload acc + v
       | None => Totals.totalWorkload acc
       end;
     Totals.totalProfHelpfulness :=
       match Review.profHelpfulnessRating data with
       | Some v => if v =? 0 then Totals.totalProfHelpfulness acc
                   else Totals.totalProfHelpfulness acc + v
       | None => Totals.totalProfHelpfulness acc
       end;
     Totals.difficultyCount :=
       if truthy_num (Review.difficultyRating data)
       then Totals.difficultyCount acc + 1
       else Totals.difficultyCount acc;
     Totals.workloadCount :=
       if truthy_num (Review.workloadRating data)
       then Totals.workloadCount acc + 1
       else Totals.workloadCount acc;
     Totals.profHelpfulnessCount :=
       if truthy_num (Review.profHelpfulnessRating data)
       then Totals.profHelpfulnessCount acc + 1
       else Totals.profHelpfulnessCount acc |}.

(** [count ? parseFloat((total / count).toFixed(1)) : 0] *)
Definition average_or_zero (total count : Z) : Z :=
  if count =? 0 then 0 else average total count.

(** The body of [getCourseStats] once the query has answered. *)
Definition stats_answer (courseCode : jsstring) (snapshot : list Review.t)
  : CourseStats.t :=
  match snapshot with
  | [] => {| CourseStats.courseCode := courseCode;
             CourseStats.totalReviews := 0;
             CourseStats.averageRating := 0;
             CourseStats.averageDifficulty := 0;
             CourseStats.averageWorkload := 0;
             CourseStats.averageProfHelpfulness := 0 |}
  | _ :: _ =>
      let acc := fold_left accumulate snapshot (Totals.mk 0 0 0 0 0 0 0) in
      let totalReviews := Z.of_nat (length snapshot) in
      {| CourseStats.courseCode := courseCode;
         CourseStats.totalReviews := totalReviews;
         CourseStats.averageRating :=
           average (Totals.totalRating acc) totalReviews;
         CourseStats.averageDifficulty :=
           average_or_zero (Totals.totalDifficulty acc)
             (Totals.difficultyCount acc);
         CourseStats.averageWorkload :=
           average_or_zero (Totals.totalWorkload acc)
             (Totals.workloadCount acc);
         CourseStats.averageProfHelpfulness :=
           average_or_zero (Totals.totalProfHelpfulness acc)
             (Totals.profHelpfulnessCount acc) |}
  end.

(** [exports.getCourseStats] *)
Definition getCourseStats (courseCode : jsstring) (db : store)
  : http CourseStats.t :=
  match courseCode with
  | [] => HttpError 400 "courseCode is required"
  | _ :: _ =>
      Json 200 (stats_answer courseCode (where_courseCode courseCode db).*2)
  end.

End Functions.

(** ** The client service ([services/reviewService]) *)

Module ReviewService.

(** The three [throw]s at the head of [submitReview]. *)
Definition submitReview_guard (d : reviewData.t) : option string :=
  if negb (truthy_str (reviewData.courseCode d))
     || negb (truthy_num (reviewData.rating d))
     || negb (truthy_str (reviewData.reviewText d))
  then Some "Missing required fields: courseCode, rating, or reviewText"%string
  else if match reviewData.rating d with
          | Some r => (r <? 1) || (r >? 5)
          | None => false
          end
  then Some "Rating must be between 1 and 5"%string
  else if match reviewData.reviewText d with
          | Some s => Z.of_nat (length s) <? 20
          | None => false
          end
  then Some "Review text must be at least 20 characters"%string
  else None.

(** [x || null] *)
Definition optional_rating (x : option Z) : option Z :=
  if truthy_num x then x else None.

(** The object literal [reviewToSubmit]; as on the server, the three
    required fields are present once the guards have passed. *)
Definition reviewToSubmit (now : Z) (d : reviewData.t) : option Review.t :=
  courseCode ← reviewData.courseCode d;
  rating ← reviewData.rating d;
  reviewText ← reviewData.reviewText d;
  Some
    {| Review.courseCode := courseCode;
       Review.courseName := or_empty (reviewData.courseName d);
       Review.collegeCode := or_empty (reviewData.collegeCode d);
       Review.subjectCode := or_empty (reviewData.subjectCode d);
       Review.courseNumber := or_empty (reviewData.courseNumber d);
       Review.rating := rating;
       Review.reviewText := reviewText;
       Review.difficultyRating :=
         optional_rating (reviewData.difficultyRating d);
       Review.workloadRating :=
         optional_rating (reviewData.workloadRating d);
       Review.profHelpfulnessRating :=
         optional_rating (reviewData.profHelpfulnessRating d);
       Review.semesterTaken := or_empty (reviewData.semesterTaken d);
       Review.authorEmail :=
         if truthy_bool (reviewData.isAnonymous d)
         then None
         else reviewData.authorEmail d;
       Review.isAnonymous := truthy_bool (reviewData.isAnonymous d) || true;
       Review.authorName :=
         if truthy_bool (reviewData.isAnonymous d)
         then Some (js "Anonymous")
         else reviewData.authorName d;
       Review.createdAt := now;
       Review.updatedAt := now;
       Review.verified := false;
       Review.helpfulVotes := 0;
       Review.totalVotes := 0;
       Review.reportedCount := 0 |}.

(** [submitReview]: resolves to the id of the new document; every
    [throw] is rethrown by the [catch]. *)
Definition submitReview (now : Z) (newId : docid) (d : reviewData.t)
    (db : store) : store * promise docid :=
  match submitReview_guard d with
  | Some e => (db, Rejected e)
  | None =>
      match reviewToSubmit now d with
      | Some r => (store_add newId r db, Resolved newId)
      | None => (db, Rejected "TypeError")
      end
  end.

(** [upvoteReview]: no existence check; whatever [updateDoc] raises is
    replaced by one message. *)
Definition upvoteReview (now : Z) (reviewId : docid) (db : store)
  : store * promise bool :=
  match store_update reviewId (helpful_update now) db with
  | Some db' => (db', Resolved true)
  | None => (db, Rejected "Failed to upvote review")
  end.

(** [reportReview] *)
Definition reportReview (now : Z) (reviewId : docid) (db : store)
  : store * promise bool :=
  match store_update reviewId (report_update now) db with
  | Some db' => (db', Resolved true)
  | None => (db, Rejected "Failed to report review")
  end.

(** The body of [getReviewsByCourse] once the query has answered:
    [reviews.length > 0 ? totalRating / reviews.length : 0], then
    [toFixed(1)]. *)
Definition reviews_answer (snapshot : list (docid * Review.t))
  : ReviewList.t :=
  let totalRating :=
    fold_left (λ total doc, total + Review.rating doc.2) snapshot 0 in
  let averageRating :=
    if 0 <? Z.of_nat (length snapshot)
    then div64 totalRating (Z.of_nat (length snapshot))
    else (0, 0) in
  {| ReviewList.reviews := snapshot;
     ReviewList.averageRating := toFixed1 averageRating;
     ReviewList.totalReviews := Z.of_nat (length snapshot) |}.

(** [getReviewsByCourse] *)
Definition getReviewsByCourse (courseCode : jsstring) (db : store)
  : promise ReviewList.t :=
  Resolved
    (reviews_answer
       (orderBy_helpfulVotes_desc (where_courseCode courseCode db))).

End ReviewService.

(** ** Reachable stores

    A store is reachable when it results from the empty collection by
    calls of the writing operations, of the server or of the client; a new
    document gets a non-empty id the store does not hold yet. *)

Inductive step : store -> store -> Prop :=
| step_submit_server now newId d db :
    newId <> [] -> db !! newId = None ->
    step db (Functions.submitReview now newId d db).1
| step_submit_client now newId d db :
    newId <> [] -> db !! newId = None ->
    step db (ReviewService.submitReview now newId d db).1
| step_upvote_server now reviewId db :
    step db (Functions.upvoteReview now reviewId db).1
| step_upvote_client now reviewId db :
    step db (ReviewService.upvoteReview now reviewId db).1
| step_report_server now reviewId db :
    step db (Functions.reportReview now reviewId db).1
| step_report_client now reviewId db :
    step db (ReviewService.reportReview now reviewId db).1.

Inductive reachable : store -> Prop :=
| reachable_empty : reachable ∅
| reachable_step db db' : reachable db -> step db db' -> reachable db'.

(** ** The rules as the specification words them *)

Module Spec.

(** "[courseCode] is absent or empty" *)
Definition courseCode_missing (d : reviewData.t) : Prop :=
  reviewData.courseCode d = None \/ reviewData.courseCode d = Some [].

(** "[rating] is absent or outside [1,5]" *)
Definition rating_invalid (d : reviewData.t) : Prop :=
  match reviewData.rating d with
  | Some r => r < 1 \/ 5 < r
  | None => True
  end.

(** "[reviewText] is absent or its trimmed length is below 20" *)
Definition reviewText_invalid (d : reviewData.t) : Prop :=
  match reviewData.reviewText d with
  | Some s => (length (trim s) < 20)%nat
  | None => True
  end.

Definition accepted (d : reviewData.t) : Prop :=
  ~ courseCode_missing d /\ ~ rating_invalid d /\ ~ reviewText_invalid d.

#[global] Instance courseCode_missing_dec d : Decision (courseCode_missing d).
Proof. unfold courseCode_missing. apply _. Defined.

#[global] Instance rating_invalid_dec d : Decision (rating_invalid d).
Proof. unfold rating_invalid. destruct (reviewData.rating d); apply _. Defined.

#[global] Instance reviewText_invalid_dec d : Decision (reviewText_invalid d).
Proof.
  unfold reviewText_invalid. destruct (reviewData.reviewText d); apply _.
Defined.

(** "the first failing rule's error kind", in the order courseCode,
    rating, reviewText; [None] for "accepted". *)
Definition first_failing_rule (d : reviewData.t) : option error_kind :=
  if decide (courseCode_missing d) then Some MissingField
  else if decide (rating_invalid d) then Some InvalidRating
  else if decide (reviewText_invalid d) then Some InvalidReviewText
  else None.

(** Round-half-up of the exact mean [total / count] to one decimal place,
    in tenths: the reference fixed-point rounding, for [total >= 0]. *)
Definition round_half_up (total count : Z) : Z :=
  (20 * total + count) / (2 * count).

(** The exact mean lies halfway between two tenths. *)
Definition tie (total count : Z) : Prop :=
  (20 * total + count) mod (2 * count) = 0.

End Spec.

(** ** Field updates of a request body *)

Definition with_rating (v : option Z) (d : reviewData.t) : reviewData.t :=
  {| reviewData.courseCode := reviewData.courseCode d;
     reviewData.courseName := reviewData.courseName d;
     reviewData.collegeCode := reviewData.collegeCode d;
     reviewData.subjectCode := reviewData.subjectCode d;
     reviewData.courseNumber := reviewData.courseNumber d;
     reviewData.rating := v;
     reviewData.reviewText := reviewData.reviewText d;
     reviewData.difficultyRating := reviewData.difficultyRating d;
     reviewData.workloadRating := reviewData.workloadRating d;
     reviewData.profHelpfulnessRating := reviewData.profHelpfulnessRating d;
     reviewData.semesterTaken := reviewData.semesterTaken d;
     reviewData.authorName := reviewData.authorName d;
     reviewData.authorEmail := reviewData.authorEmail d;
     reviewData.isAnonymous := reviewData.isAnonymous d |}.

Definition with_reviewText (v : option jsstring) (d : reviewData.t)
  : reviewData.t :=
  {| reviewData.courseCode := reviewData.courseCode d;
     reviewData.courseName := reviewData.courseName d;
     reviewData.collegeCode := reviewData.collegeCode d;
     reviewData.subjectCode := reviewData.subjectCode d;
     reviewData.courseNumber := reviewData.courseNumber d;
     reviewData.rating := reviewData.rating d;
     reviewData.reviewText := v;
     reviewData.difficultyRating := reviewData.difficultyRating d;
     reviewData.workloadRating := reviewData.workloadRating d;
     reviewData.profHelpfulnessRating := reviewData.profHelpfulnessRating d;
     reviewData.semesterTaken := reviewData.semesterTaken d;
     reviewData.authorName := reviewData.authorName d;
     reviewData.authorEmail := reviewData.authorEmail d;
     reviewData.isAnonymous := reviewData.isAnonymous d |}.

Definition with_difficultyRating (v : option Z) (d : reviewData.t)
  : reviewData.t :=
  {| reviewData.courseCode := reviewData.courseCode d;
     reviewData.courseName := reviewData.courseName d;
     reviewData.collegeCode := reviewData.collegeCode d;
     reviewData.subjectCode := reviewData.subjectCode d;
     reviewData.courseNumber := reviewData.courseNumber d;
     reviewData.rating := reviewData.rating d;
     reviewData.reviewText := reviewData.reviewText d;
     reviewData.difficultyRating := v;
     reviewData.workloadRating := reviewData.workloadRating d;
     reviewData.profHelpfulnessRating := reviewData.profHelpfulnessRating d;
     reviewData.semesterTaken := reviewData.semesterTaken d;
     reviewData.authorName := reviewData.authorName d;
     reviewData.authorEmail := reviewData.authorEmail d;
     reviewData.isAnonymous := reviewData.isAnonymous d |}.

Definition with_workloadRating (v : option Z) (d : reviewData.t)
  : reviewData.t :=
  {| reviewData.courseCode := reviewData.courseCode d;
     reviewData.courseName := reviewData.courseName d;
     reviewData.collegeCode := reviewData.collegeCode d;
     reviewData.subjectCode := reviewData.subjectCode d;
     reviewData.courseNumber := reviewData.courseNumber d;
     reviewData.rating := reviewData.rating d;
     reviewData.reviewText := reviewData.reviewText d;
     reviewData.difficultyRating := reviewData.difficultyRating d;
     reviewData.workloadRating := v;
     reviewData.profHelpfulnessRating := reviewData.profHelpfulnessRating d;
     reviewData.semesterTaken := reviewData.semesterTaken d;
     reviewData.authorName := reviewData.authorName d;
     reviewData.authorEmail := reviewData.authorEmail d;
     reviewData.isAnonymous := reviewData.isAnonymous d |}.

Definition with_profHelpfulnessRating (v : option Z) (d : reviewData.t)
  : reviewData.t :=
  {| reviewData.courseCode := reviewData.courseCode d;
     reviewData.courseName := reviewData.courseName d;
     reviewData.collegeCode := reviewData.collegeCode d;
     reviewData.subjectCode := reviewData.subjectCode d;
     reviewData.courseNumber := reviewData.courseNumber d;
     reviewData.rating := reviewData.rating d;
     reviewData.reviewText := reviewData.reviewText d;
     reviewData.difficultyRating := reviewData.difficultyRating d;
     reviewData.workloadRating := reviewData.workloadRating d;
     reviewData.profHelpfulnessRating := v;
     reviewData.semesterTaken := reviewData.semesterTaken d;
     reviewData.authorName := reviewData.authorName d;
     reviewData.authorEmail := reviewData.authorEmail d;
     reviewData.isAnonymous := reviewData.isAnonymous d |}.

Definition with_author (name email : option jsstring) (anonymous : option bool)
    (d : reviewData.t) : reviewData.t :=
  {| reviewData.courseCode := reviewData.courseCode d;
     reviewData.courseName := reviewData.courseName d;
     reviewData.collegeCode := reviewData.collegeCode d;
     reviewData.subjectCode := reviewData.subjectCode d;
     reviewData.courseNumber := reviewData.courseNumber d;
     reviewData.rating := reviewData.rating d;
     reviewData.reviewText := reviewData.reviewText d;
     reviewData.difficultyRating := reviewData.difficultyRating d;
     reviewData.workloadRating := reviewData.workloadRating d;
     reviewData.profHelpfulnessRating := reviewData.profHelpfulnessRating d;
     reviewData.semesterTaken := reviewData.semesterTaken d;
     reviewData.authorName := name;
     reviewData.authorEmail := email;
     reviewData.isAnonymous := anonymous |}.

(** ** Sample requests and stores *)

(** [{courseCode: "CASCS131", rating: 5,
      reviewText: "Clear lectures and fair exams."}] *)
Definition sample_review : reviewData.t :=
  {| reviewData.courseCode := Some (js "CASCS131");
     reviewData.courseName := None;
     reviewData.collegeCode := None;
     reviewData.subjectCode := None;
     reviewData.courseNumber := None;
     reviewData.rating := Some 5;
     reviewData.reviewText := Some (js "Clear lectures and fair exams.");
     reviewData.difficultyRating := None;
     reviewData.workloadRating := None;
     reviewData.profHelpfulnessRating := None;
     reviewData.semesterTaken := None;
     reviewData.authorName := None;
     reviewData.authorEmail := None;
     reviewData.isAnonymous := None |}.

(** The sample with a name and an e-mail address and no [isAnonymous]. *)
Definition signed_review : reviewData.t :=
  with_author (Some (js "Alice")) (Some (js "alice@bu.edu")) None
    sample_review.

(** Nineteen spaces and one letter: length 20, trimmed length 1. *)
Definition padded_text : jsstring := repeat 32%N 19 ++ js "a".

Definition padded_review : reviewData.t :=
  with_reviewText (Some padded_text) sample_review.

(** Three reviews of one course with ratings 5, 4 and 3, of which the
    first and the last rate the difficulty, 4 and 2. *)
Definition three_reviews : store :=
  (Functions.submitReview 3 (js "r3")
     (with_difficultyRating (Some 2) (with_rating (Some 3) sample_review))
     (Functions.submitReview 2 (js "r2")
        (with_rating (Some 4) sample_review)
        (Functions.submitReview 1 (js "r1")
           (with_difficultyRating (Some 4) sample_review) ∅).1).1).1.

(** Twenty reviews of one course, eleven with rating 1 and nine with
    rating 2: the ratings sum to 29 and their mean is 1.45. *)
Definition twenty_reviews : list Review.t :=
  omap (Functions.reviewToSubmit 0)
    (repeat (with_rating (Some 1) sample_review) 11
     ++ repeat (with_rating (Some 2) sample_review) 9).

(** ** Invariants of the persisted documents *)

(** No helpful vote without a vote: the two counters are equal and not
    negative. *)
Definition votes_agree (r : Review.t) : Prop :=
  0 <= Review.helpfulVotes r /\ Review.helpfulVotes r = Review.totalVotes r.

(** An optional rating that is stored is not 0. *)
Definition optional_nonzero (x : option Z) : Prop :=
  match x with
  | Some v => v <> 0
  | None => True
  end.

Definition optionals_nonzero (r : Review.t) : Prop :=
  optional_nonzero (Review.difficultyRating r)
  /\ optional_nonzero (Review.workloadRating r)
  /\ optional_nonzero (Review.profHelpfulnessRating r).

(** The overall rating that is stored lies in [1,5]. *)
Definition rating_in_range (r : Review.t) : Prop :=
  1 <= Review.rating r <= 5.

(** An optional rating that is stored lies in [1,5]. *)
Definition optional_in_range (x : option Z) : Prop :=
  match x with
  | Some v => 1 <= v <= 5
  | None => True
  end.

(** The ratings of a record are those the data model allows. *)
Definition ratings_in_range (r : Review.t) : Prop :=
  rating_in_range r
  /\ optional_in_range (Review.difficultyRating r)
  /\ optional_in_range (Review.workloadRating r)
  /\ optional_in_range (Review.profHelpfulnessRating r).

#[global] Instance optional_in_range_dec x : Decision (optional_in_range x).
Proof. destruct x; simpl; apply _. Defined.

#[global] Instance ratings_in_range_dec r : Decision (ratings_in_range r).
Proof. unfold ratings_in_range, rating_in_range. apply _. Defined.

(** The twenty reviews as a query answers them, each with its id. *)
Definition twenty_snapshot : list (docid * Review.t) :=
  imap (λ i r, (js "r" ++ [N.of_nat i], r)) twenty_reviews.

(** ** Aggregates as the specification words them *)

Definition sum (values : list Z) : Z := foldr Z.add 0 values.

(** The values of a field over the reviews where it is present. *)
Definition present (field : Review.t -> option Z) (reviews : list Review.t)
  : list Z :=
  omap field reviews.

(** The mean of [values] to one decimal place, in tenths: their sum
    divided by their number, and 0 when there is none. *)
Definition mean_tenths (values : list Z) : Z :=
  match values with
  | [] => 0
  | _ :: _ => average (sum values) (Z.of_nat (length values))
  end.

(** [result] is the round-half-up of the exact mean of [values] to one
    decimal place, or one tenth below it when the exact mean is halfway
    between two tenths; 0 when there is no value. *)
Definition rounds_mean (values : list Z) (result : Z) : Prop :=
  match values with
  | [] => result = 0
  | _ :: _ =>
      let total := sum values in
      let count := Z.of_nat (length values) in
      Spec.round_half_up total count - 1 <= result
      /\ result <= Spec.round_half_up total count
      /\ (~ Spec.tie total count -> result = Spec.round_half_up total count)
  end.

(** ** The HTTP surface of the handlers

    What a handler reads of the request: the method, the path, the
    [courseCode] of the query string and the body. *)

Module Request.
Record t := mk {
  method : string;
  path : jsstring;
  query_courseCode : option jsstring;
  body : reviewData.t
}.
End Request.

(** [s.split("/")]: the pieces between the slashes (code unit 47); one
    piece, the string itself, when there is no slash. *)
Fixpoint split_slash (s : jsstring) : list jsstring :=
  match s with
  | [] => [[]]
  | c :: s' =>
      if (c =? 47)%N then [] :: split_slash s'
      else match split_slash s' with
           | piece :: pieces => (c :: piece) :: pieces
           | [] => [[c]]
           end
  end.

(** [pathParts[pathParts.length - 2]], [undefined] when the index is
    negative. *)
Definition path_parameter (path : jsstring) : option jsstring :=
  let pathParts := split_slash path in
  let i := Z.of_nat (length pathParts) - 2 in
  if i <? 0 then None else pathParts !! Z.to_nat i.

(** The functions [exports.*] as they receive a request: the method check,
    the parameter taken from the query or from the path, then the body of
    the handler. *)
Module Exports.

Definition getReviews (req : Request.t) (db : store) : http ReviewList.t :=
  if negb (String.eqb (Request.method req) "GET")
  then HttpError 405 "Method not allowed"
  else Functions.getReviews (Request.query_courseCode req) db.

Definition submitReview (now : Z) (newId : docid) (req : Request.t)
    (db : store) : store * http docid :=
  if negb (String.eqb (Request.method req) "POST")
  then (db, HttpError 405 "Method not allowed")
  else Functions.submitReview now newId (Request.body req) db.

Definition upvoteReview (now : Z) (req : Request.t) (db : store)
  : store * http (Z * Z) :=
  if negb (String.eqb (Request.method req) "PUT")
  then (db, HttpError 405 "Method not allowed")
  else match path_parameter (Request.path req) with
       | Some reviewId => Functions.upvoteReview now reviewId db
       | None => (db, HttpError 400 "reviewId is required")
       end.

Definition reportReview (now : Z) (req : Request.t) (db : store)
  : store * http string :=
  if negb (String.eqb (Request.method req) "PUT")
  then (db, HttpError 405 "Method not allowed")
  else match path_parameter (Request.path req) with
       | Some reviewId => Functions.reportReview now reviewId db
       | None => (db, HttpError 400 "reviewId is required")
       end.

Definition getCourseStats (req : Request.t) (db : store)
  : http CourseStats.t :=
  if negb (String.eqb (Request.method req) "GET")
  then HttpError 405 "Method not allowed"
  else match path_parameter (Request.path req) with
       | Some courseCode => Functions.getCourseStats courseCode db
       | None => HttpError 400 "courseCode is required"
       end.

End Exports.

(** The status of an answer. *)
Definition status_of {A} (r : http A) : Z :=
  match r with
  | Json s _ => s
  | HttpError s _ => s
  end.

(** ** What the aggregation counts

    The values of an optional rating that pass the test
    [if (data.difficultyRating)]: present and not 0. *)
Definition truthy_values (field : Review.t -> option Z)
    (reviews : list Review.t) : list Z :=
  omap (λ r, match field r with
             | Some v => if v =? 0 then None else Some v
             | None => None
             end) reviews.

(** ** The review form ([components/ReviewForm.jsx]) *)

Module FormData.
Record t := mk {
  rating : Z;
  reviewText : jsstring;
  difficultyRating : Z;
  workloadRating : Z;
  profHelpfulnessRating : Z;
  semesterTaken : jsstring;
  authorName : jsstring;
  authorEmail : jsstring;
  isAnonymous : bool
}.
End FormData.

(** The object [newErrors]: a key is [Some message] when it is set. *)
Module FormErrors.
Record t := mk {
  rating : option string;
  reviewText : option string;
  authorName : option string
}.
End FormErrors.

Module ReviewForm.

(** The state the form starts from. *)
Definition initial : FormData.t :=
  {| FormData.rating := 0;
     FormData.reviewText := [];
     FormData.difficultyRating := 0;
     FormData.workloadRating := 0;
     FormData.profHelpfulnessRating := 0;
     FormData.semesterTaken := [];
     FormData.authorName := [];
     FormData.authorEmail := [];
     FormData.isAnonymous := true |}.

(** [validateForm]: the errors it sets. *)
Definition validateForm_errors (formData : FormData.t) : FormErrors.t :=
  {| FormErrors.rating :=
       if FormData.rating formData =? 0
       then Some "Please select a rating"%string
       else None;
     FormErrors.reviewText :=
       match trim (FormData.reviewText formData) with
       | [] => Some "Review text is required"%string
       | _ :: _ =>
           if Z.of_nat (length (trim (FormData.reviewText formData))) <? 20
           then Some "Review must be at least 20 characters"%string
           else None
       end;
     FormErrors.authorName :=
       if negb (FormData.isAnonymous formData)
          && negb (truthy_str (Some (trim (FormData.authorName formData))))
       then Some "Please enter your name or select anonymous"%string
       else None |}.

(** [Object.keys(newErrors).length === 0], the result of [validateForm]. *)
Definition validateForm (formData : FormData.t) : bool :=
  match validateForm_errors formData with
  | {| FormErrors.rating := None;
       FormErrors.reviewText := None;
       FormErrors.authorName := None |} => true
  | _ => false
  end.

(** [{...formData, courseCode, courseName}], what [handleSubmit] hands to
    [onSubmit]. *)
Definition submission (courseCode courseName : jsstring)
    (formData : FormData.t) : reviewData.t :=
  {| reviewData.courseCode := Some courseCode;
     reviewData.courseName := Some courseName;
     reviewData.collegeCode := None;
     reviewData.subjectCode := None;
     reviewData.courseNumber := None;
     reviewData.rating := Some (FormData.rating formData);
     reviewData.reviewText := Some (FormData.reviewText formData);
     reviewData.difficultyRating := Some (FormData.difficultyRating formData);
     reviewData.workloadRating := Some (FormData.workloadRating formData);
     reviewData.profHelpfulnessRating :=
       Some (FormData.profHelpfulnessRating formData);
     reviewData.semesterTaken := Some (FormData.semesterTaken formData);
     reviewData.authorName := Some (FormData.authorName formData);
     reviewData.authorEmail := Some (FormData.authorEmail formData);
     reviewData.isAnonymous := Some (FormData.isAnonymous formData) |}.

(** [handleSubmit]: nothing is handed to [onSubmit] when [validateForm]
    fails. *)
Definition handleSubmit (courseCode courseName : jsstring)
    (formData : FormData.t) : option reviewData.t :=
  if validateForm formData
  then Some (submission courseCode courseName formData)
  else None.

End ReviewForm.

(** ** Stars ([components/CourseCard.jsx], [ReviewDisplay])

    An average reaches the components as the number [parseFloat] read from
    one fractional digit; it is kept in tenths here as everywhere. For a
    number [n / 10] that is not negative, [Math.floor] gives [n / 10]
    rounded down, [rating % 1 >= 0.5] holds when the last digit is at least
    5, and [Math.round] gives [(n + 5) / 10] rounded down. *)

Inductive star : Set := Filled | Half | Empty.

Module CourseCard.

(** [renderStars(rating)], for [rating] in tenths. *)
Definition renderStars (rating : Z) : list star :=
  let fullStars := rating / 10 in
  let hasHalfStar := 5 <=? rating mod 10 in
  (λ i, if i <? fullStars then Filled
        else if (i =? fullStars) && hasHalfStar then Half
        else Empty) <$> seqZ 0 5.

End CourseCard.

Module ReviewDisplay.

(** [Math.round(averageRating)], for [averageRating] in tenths. *)
Definition Math_round (averageRating : Z) : Z := (averageRating + 5) / 10.

(** [renderStars(rating)], for an integer [rating]. *)
Definition renderStars (rating : Z) : list star :=
  (λ i, if i <? rating then Filled else Empty) <$> seqZ 0 5.

(** What stands in the header of a review: the badge or the name. *)
Inductive author : Type :=
| AnonymousBadge
| AuthorName (name : option jsstring).

Definition review_author (review : Review.t) : author :=
  if Review.isAnonymous review then AnonymousBadge
  else AuthorName (Review.authorName review).

End ReviewDisplay.

(** ** The hook [useReviews] ([hooks/useReviews.js]) *)

(** [{success: true, ...}] or [{success: false, error}]. *)
Inductive outcome (A : Type) : Type :=
| Success (value : A)
| Failure (error : string).
Arguments Success {A} value.
Arguments Failure {A} error.

Definition with_courseCode (v : option jsstring) (d : reviewData.t)
  : reviewData.t :=
  {| reviewData.courseCode := v;
     reviewData.courseName := reviewData.courseName d;
     reviewData.collegeCode := reviewData.collegeCode d;
     reviewData.subjectCode := reviewData.subjectCode d;
     reviewData.courseNumber := reviewData.courseNumber d;
     reviewData.rating := reviewData.rating d;
     reviewData.reviewText := reviewData.reviewText d;
     reviewData.difficultyRating := reviewData.difficultyRating d;
     reviewData.workloadRating := reviewData.workloadRating d;
     reviewData.profHelpfulnessRating := reviewData.profHelpfulnessRating d;
     reviewData.semesterTaken := reviewData.semesterTaken d;
     reviewData.authorName := reviewData.authorName d;
     reviewData.authorEmail := reviewData.authorEmail d;
     reviewData.isAnonymous := reviewData.isAnonymous d |}.

(** [{...review, helpfulVotes: review.helpfulVotes + 1,
      totalVotes: review.totalVotes + 1}] *)
Definition local_helpful (r : Review.t) : Review.t :=
  {| Review.courseCode := Review.courseCode r;
     Review.courseName := Review.courseName r;
     Review.collegeCode := Review.collegeCode r;
     Review.subjectCode := Review.subjectCode r;
     Review.courseNumber := Review.courseNumber r;
     Review.rating := Review.rating r;
     Review.reviewText := Review.reviewText r;
     Review.difficultyRating := Review.difficultyRating r;
     Review.workloadRating := Review.workloadRating r;
     Review.profHelpfulnessRating := Review.profHelpfulnessRating r;
     Review.semesterTaken := Review.semesterTaken r;
     Review.authorEmail := Review.authorEmail r;
     Review.isAnonymous := Review.isAnonymous r;
     Review.authorName := Review.authorName r;
     Review.createdAt := Review.createdAt r;
     Review.updatedAt := Review.updatedAt r;
     Review.verified := Review.verified r;
     Review.helpfulVotes := Review.helpfulVotes r + 1;
     Review.totalVotes := Review.totalVotes r + 1;
     Review.reportedCount := Review.reportedCount r |}.

Module useReviews.

(** The state of the hook. *)
Record t := mk {
  reviews : list (docid * Review.t);
  averageRating : Z;
  totalReviews : Z;
  loading : bool;
  error : option string
}.

Definition initial : t :=
  {| reviews := []; averageRating := 0; totalReviews := 0;
     loading := true; error := None |}.

(** [fetchReviews] *)
Definition fetchReviews (courseCode : jsstring) (db : store) (st : t) : t :=
  match ReviewService.getReviewsByCourse courseCode db with
  | Resolved data =>
      {| reviews := ReviewList.reviews data;
         averageRating := ReviewList.averageRating data;
         totalReviews := ReviewList.totalReviews data;
         loading := false;
         error := None |}
  | Rejected message =>
      {| reviews := reviews st;
         averageRating := averageRating st;
         totalReviews := totalReviews st;
         loading := false;
         error := Some message |}
  end.

(** [addReview]: the store, the state and the object returned. *)
Definition addReview (courseCode : jsstring) (now : Z) (newId : docid)
    (reviewData : reviewData.t) (db : store) (st : t)
  : store * t * outcome docid :=
  match ReviewService.submitReview now newId
          (with_courseCode (Some courseCode) reviewData) db with
  | (db', Resolved reviewId) =>
      (db', fetchReviews courseCode db' st, Success reviewId)
  | (db', Rejected message) => (db', st, Failure message)
  end.

(** [markHelpful]: on success the votes of the review are raised in the
    local list, which is not fetched again. *)
Definition markHelpful (now : Z) (reviewId : docid) (db : store) (st : t)
  : store * t * outcome unit :=
  match ReviewService.upvoteReview now reviewId db with
  | (db', Resolved _) =>
      (db',
       {| reviews :=
            (λ review : docid * Review.t,
               if decide (review.1 = reviewId)
               then (review.1, local_helpful review.2)
               else review) <$> reviews st;
          averageRating := averageRating st;
          totalReviews := totalReviews st;
          loading := loading st;
          error := error st |},
       Success ())
  | (db', Rejected message) => (db', st, Failure message)
  end.

End useReviews.

(** ** The page ([components/CourseRecommender.jsx])

    Of its state, the map [reviewsData] from course codes to the answers
    of [getReviewsByCourse], and the course that is selected. *)

Module CourseRecommender.

(** [reviewsMap], filled by the [forEach] of [fetchRecommendations] from
    the answers for the recommended courses. *)
Definition reviewsMap (courseCodes : list jsstring) (db : store)
  : gmap jsstring ReviewList.t :=
  fold_left
    (λ (m : gmap jsstring ReviewList.t) (courseCode : jsstring),
       match ReviewService.getReviewsByCourse courseCode db with
       | Resolved data => <[courseCode := data]> m
       | Rejected _ =>
           <[courseCode := {| ReviewList.reviews := [];
                              ReviewList.averageRating := 0;
                              ReviewList.totalReviews := 0 |}]> m
       end)
    courseCodes ∅.

(** [reviewsData[course.courseCode] || {averageRating: 0, totalReviews: 0}],
    what a card is given. *)
Definition card_rating (reviewsData : gmap jsstring ReviewList.t)
    (courseCode : jsstring) : Z * Z :=
  match reviewsData !! courseCode with
  | Some data => (ReviewList.averageRating data, ReviewList.totalReviews data)
  | None => (0, 0)
  end.

(** [handleSubmitReview]: submit, then fetch the reviews of the course of
    the submission again. *)
Definition handleSubmitReview (now : Z) (newId : docid)
    (reviewData : reviewData.t) (db : store)
    (reviewsData : gmap jsstring ReviewList.t)
  : store * gmap jsstring ReviewList.t * outcome unit :=
  match ReviewService.submitReview now newId reviewData db with
  | (db', Resolved _) =>
      match reviewData.courseCode reviewData,
            ReviewService.getReviewsByCourse
              (or_empty (reviewData.courseCode reviewData)) db' with
      | Some courseCode, Resolved updatedReviews =>
          (db', <[courseCode := updatedReviews]> reviewsData, Success ())
      | _, Resolved _ => (db', reviewsData, Success ())
      | _, Rejected message => (db', reviewsData, Failure message)
      end
  | (db', Rejected message) => (db', reviewsData, Failure message)
  end.

(** [handleMarkHelpful]: nothing without a selected course; else the vote,
    then the reviews of the selected course are fetched again. Errors are
    logged, not returned. *)
Definition handleMarkHelpful (now : Z) (reviewId : docid)
    (selectedCourse : option jsstring) (db : store)
    (reviewsData : gmap jsstring ReviewList.t)
  : store * gmap jsstring ReviewList.t :=
  match selectedCourse with
  | None => (db, reviewsData)
  | Some courseCode =>
      match ReviewService.upvoteReview now reviewId db with
      | (db', Resolved _) =>
          match ReviewService.getReviewsByCourse courseCode db' with
          | Resolved updatedReviews =>
              (db', <[courseCode := updatedReviews]> reviewsData)
          | Rejected _ => (db', reviewsData)
          end
      | (db', Rejected _) => (db', reviewsData)
      end
  end.

End CourseRecommender.

(** ** Relations between stores and between records *)

(** [db'] is [db] with the new document [r] under [id]. *)
Definition stored_as (db db' : store) (id : docid) (r : Review.t) : Prop :=
  db' !! id = Some r
  /\ (forall j, j <> id -> db' !! j = db !! j)
  /\ size db' = S (size db).

(** [u] is [r] but for the three counters and [updatedAt]. *)
Definition same_content (r u : Review.t) : Prop :=
  Review.courseCode u = Review.courseCode r
  /\ Review.courseName u = Review.courseName r
  /\ Review.collegeCode u = Review.collegeCode r
  /\ Review.subjectCode u = Review.subjectCode r
  /\ Review.courseNumber u = Review.courseNumber r
  /\ Review.rating u = Review.rating r
  /\ Review.reviewText u = Review.reviewText r
  /\ Review.difficultyRating u = Review.difficultyRating r
  /\ Review.workloadRating u = Review.workloadRating r
  /\ Review.profHelpfulnessRating u = Review.profHelpfulnessRating r
  /\ Review.semesterTaken u = Review.semesterTaken r
  /\ Review.authorEmail u = Review.authorEmail r
  /\ Review.isAnonymous u = Review.isAnonymous r
  /\ Review.authorName u = Review.authorName r
  /\ Review.createdAt u = Review.createdAt r
  /\ Review.verified u = Review.verified r.

(** What holds of every document the operations persist. *)
Definition well_formed (r : Review.t) : Prop :=
  Review.courseCode r <> []
  /\ 1 <= Review.rating r <= 5
  /\ (20 <= length (Review.reviewText r))%nat
  /\ Review.verified r = false
  /\ 0 <= Review.reportedCount r.

(** One helpful mark through the client for each time of [nows], in
    turn. *)
Definition upvotes (nows : list Z) (reviewId : docid) (db : store) : store :=
  fold_left (λ db now, (ReviewService.upvoteReview now reviewId db).1) nows db.

(** What [getReviewsByCourse] resolves to. *)
Definition course_answer (courseCode : jsstring) (db : store) : ReviewList.t :=
  ReviewService.reviews_answer
    (orderBy_helpfulVotes_desc (where_courseCode courseCode db)).

(** The local list shows, for each of its reviews, the votes the store
    holds for it. *)
Definition votes_in_sync (db : store) (reviews : list (docid * Review.t))
  : Prop :=
  Forall (λ review : docid * Review.t,
            exists u, db !! review.1 = Some u
                      /\ Review.helpfulVotes u = Review.helpfulVotes review.2
                      /\ Review.totalVotes u = Review.totalVotes review.2)
    reviews.

(** * Properties *)

(** ** Strings *)

Lemma trimStart_length (s : jsstring) :
  (length (trimStart s) <= length s)%nat.
Proof.
  induction s as [|c s IH]; simpl; [lia|].
  destruct (is_white_space c); simpl; lia.
Qed.

Lemma trim_length (s : jsstring) : (length (trim s) <= length s)%nat.
Proof.
  unfold trim, trimEnd. rewrite length_rev.
  etransitivity; [apply trimStart_length|].
  rewrite length_rev. apply trimStart_length.
Qed.

(** ** Validation *)

Ltac split_tests :=
  repeat match goal with
    | |- context [?a <? ?b] => destruct (Z.ltb_spec a b)
    | |- context [?a >? ?b] => rewrite (Z.gtb_ltb a b)
    | |- context [?a =? ?b] => destruct (Z.eqb_spec a b)
    | H : context [?a <? ?b] |- _ => destruct (Z.ltb_spec a b)
    | H : context [?a >? ?b] |- _ => rewrite (Z.gtb_ltb a b) in H
    | H : context [?a =? ?b] |- _ => destruct (Z.eqb_spec a b)
    end.

(** The guards of the server are the rules of the specification, in the
    order of the specification. *)
Lemma server_guard_kind (d : reviewData.t) :
  http_kind 400 <$> Functions.submitReview_guard d = Spec.first_failing_rule d.
Proof.
  unfold Spec.first_failing_rule.
  repeat case_decide;
    unfold Spec.courseCode_missing, Spec.rating_invalid,
      Spec.reviewText_invalid, Functions.submitReview_guard in *;
    destruct d as [cc ? ? ? ? r t ? ? ? ? ? ? ?]; simpl in *;
    destruct cc as [[|c cs]|]; try (intuition congruence); simpl;
    destruct r as [r|]; simpl; try (intuition congruence);
    split_tests; simpl; try reflexivity; try lia;
    destruct t as [[|x t]|]; simpl in *; try reflexivity; try lia; try tauto;
    split_tests; simpl; try reflexivity; lia.
Qed.

Lemma server_guard_accepts (d : reviewData.t) :
  Functions.submitReview_guard d = None <-> Spec.accepted d.
Proof.
  pose proof (server_guard_kind d) as H.
  unfold Spec.first_failing_rule, Spec.accepted in *.
  destruct (Functions.submitReview_guard d); simpl in H;
    repeat case_decide; intuition congruence.
Qed.

(** Once the guards have passed the record is built without exception. *)
Lemma server_guard_builds (now : Z) (d : reviewData.t) :
  Functions.submitReview_guard d = None ->
  is_Some (Functions.reviewToSubmit now d).
Proof.
  unfold Functions.submitReview_guard, Functions.reviewToSubmit.
  destruct d as [cc ? ? ? ? r t ? ? ? ? ? ? ?]; simpl.
  destruct cc as [[|c cs]|]; simpl; try discriminate.
  destruct r as [r|]; simpl; try discriminate.
  destruct t as [s|]; simpl; eauto.
  intros G. repeat case_match; discriminate.
Qed.

Lemma client_guard_builds (now : Z) (d : reviewData.t) :
  ReviewService.submitReview_guard d = None ->
  is_Some (ReviewService.reviewToSubmit now d).
Proof.
  unfold ReviewService.submitReview_guard, ReviewService.reviewToSubmit.
  destruct d as [cc ? ? ? ? r t ? ? ? ? ? ? ?]; simpl.
  destruct cc as [[|c cs]|]; simpl; try discriminate.
  destruct r as [r|]; simpl; try discriminate.
  destruct t as [s|]; simpl; eauto.
  intros G. destruct (r =? 0); simpl in G; discriminate.
Qed.

Lemma server_submit_kind (now : Z) (newId : docid) (d : reviewData.t)
    (db : store) :
  kind_of_http (Functions.submitReview now newId d db).2
  = Spec.first_failing_rule d.
Proof.
  rewrite <- server_guard_kind. unfold Functions.submitReview.
  destruct (Functions.submitReview_guard d) as [e|] eqn:G; [reflexivity|].
  destruct (server_guard_builds now d G) as [r ->]. reflexivity.
Qed.

Lemma client_guard_accepts (d : reviewData.t) :
  ReviewService.submitReview_guard d = None <->
  ~ Spec.courseCode_missing d /\ ~ Spec.rating_invalid d
  /\ exists s, reviewData.reviewText d = Some s /\ (20 <= length s)%nat.
Proof.
  unfold ReviewService.submitReview_guard, Spec.courseCode_missing,
    Spec.rating_invalid.
  destruct d as [cc ? ? ? ? r t ? ? ? ? ? ? ?]; simpl.
  destruct cc as [[|c cs]|]; simpl; try (intuition congruence).
  destruct r as [r|]; simpl; [|intuition congruence].
  destruct t as [[|x t]|]; simpl.
  - rewrite orb_true_r. split; [discriminate|].
    intros (_ & _ & s & [= <-] & Hs). simpl in Hs. lia.
  - split_tests; simpl; split; try discriminate; try lia;
      try (intros (_ & ? & s & [= <-] & Hs); simpl in *; lia);
      try (intros _; reflexivity).
    intros _. repeat split; try (intuition congruence); try lia.
    exists (x :: t). simpl. split; [reflexivity | lia].
  - rewrite orb_true_r. split; [discriminate|].
    intros (_ & _ & s & [= ] & _).
Qed.

Lemma client_submit_kind (now : Z) (newId : docid) (d : reviewData.t)
    (db : store) :
  kind_of_promise (ReviewService.submitReview now newId d db).2
  = message_kind <$> ReviewService.submitReview_guard d.
Proof.
  unfold ReviewService.submitReview.
  destruct (ReviewService.submitReview_guard d) as [e|] eqn:G; [reflexivity|].
  destruct (client_guard_builds now d G) as [r ->]. reflexivity.
Qed.

(** The server redacts the author when [isAnonymous] is [true]. *)
Lemma server_redacts_explicit_anonymous (now : Z) (d : reviewData.t)
    (r : Review.t) :
  reviewData.isAnonymous d = Some true ->
  Functions.reviewToSubmit now d = Some r ->
  Review.isAnonymous r = true
  /\ Review.authorName r = Some (js "Anonymous")
  /\ Review.authorEmail r = None.
Proof.
  unfold Functions.reviewToSubmit. intros Ha Hr.
  destruct (reviewData.courseCode d), (reviewData.rating d),
    (reviewData.reviewText d); simplify_eq/=.
  rewrite Ha. auto.
Qed.

Lemma client_redacts_explicit_anonymous (now : Z) (d : reviewData.t)
    (r : Review.t) :
  reviewData.isAnonymous d = Some true ->
  ReviewService.reviewToSubmit now d = Some r ->
  Review.isAnonymous r = true
  /\ Review.authorName r = Some (js "Anonymous")
  /\ Review.authorEmail r = None.
Proof.
  unfold ReviewService.reviewToSubmit. intros Ha Hr.
  destruct (reviewData.courseCode d), (reviewData.rating d),
    (reviewData.reviewText d); simplify_eq/=.
  rewrite Ha. auto.
Qed.

(** The guards never read an optional rating. *)
Lemma guards_ignore_optional_ratings (d : reviewData.t) (x y z : option Z) :
  let d' := with_difficultyRating x
              (with_workloadRating y (with_profHelpfulnessRating z d)) in
  Functions.submitReview_guard d' = Functions.submitReview_guard d
  /\ ReviewService.submitReview_guard d' = ReviewService.submitReview_guard d.
Proof. split; reflexivity. Qed.

Lemma courseCode_present (d : reviewData.t) (c : N) (cs : jsstring) :
  reviewData.courseCode d = Some (c :: cs) -> ~ Spec.courseCode_missing d.
Proof. unfold Spec.courseCode_missing. intros ->. intuition congruence. Qed.

(** C1: a submission that leaves [isAnonymous] out and carries a name and
    an e-mail address is accepted by the server and by the client, and the
    record either of them persists is marked anonymous while it keeps the
    name and the address. *)
Theorem unspecified_anonymity_keeps_author (now : Z) (newId : docid)
    (db : store) :
  reviewData.isAnonymous signed_review = None
  /\ (exists r,
        Functions.submitReview now newId signed_review db
        = (<[newId := r]> db, Json 201 newId)
        /\ Review.isAnonymous r = true
        /\ Review.authorName r = Some (js "Alice")
        /\ Review.authorEmail r = Some (js "alice@bu.edu"))
  /\ (exists r,
        ReviewService.submitReview now newId signed_review db
        = (<[newId := r]> db, Resolved newId)
        /\ Review.isAnonymous r = true
        /\ Review.authorName r = Some (js "Alice")
        /\ Review.authorEmail r = Some (js "alice@bu.edu")).
Proof.
  split; [reflexivity|].
  split; eexists; (split; [reflexivity|]); split_and!; reflexivity.
Qed.




(** What the amended statement leaves open: a text of nineteen spaces and
    one letter has trimmed length 1; the server rejects it and the client,
    which measures the text as it came, accepts it. *)
Lemma client_accepts_padded_text :
  length (trim padded_text) = 1%nat
  /\ kind_of_http (Functions.submitReview 0 (js "r1") padded_review ∅).2
     = Some InvalidReviewText
  /\ kind_of_promise (ReviewService.submitReview 0 (js "r1") padded_review ∅).2
     = None.
Proof. vm_compute. auto. Qed.







(** ** The store under the writing operations *)

Lemma store_update_None (id : docid) (f : Review.t -> Review.t) (db : store) :
  db !! id = None -> store_update id f db = None.
Proof. unfold store_update. intros ->. reflexivity. Qed.

Lemma store_update_Some (id : docid) (f : Review.t -> Review.t) (db : store)
    (r : Review.t) :
  db !! id = Some r -> store_update id f db = Some (<[id := f r]> db).
Proof. unfold store_update. intros ->. reflexivity. Qed.

Lemma server_upvote_store (now : Z) (id : docid) (db : store) (r : Review.t) :
  id <> [] -> db !! id = Some r ->
  Functions.upvoteReview now id db
  = (<[id := helpful_update now r]> db,
     Json 200 (Review.helpfulVotes r + 1, Review.totalVotes r + 1)).
Proof.
  intros Hid Hr. unfold Functions.upvoteReview.
  destruct id as [|c id]; [congruence|].
  rewrite Hr, (store_update_Some _ _ _ _ Hr), lookup_insert_eq. reflexivity.
Qed.

Lemma server_report_store (now : Z) (id : docid) (db : store) (r : Review.t) :
  id <> [] -> db !! id = Some r ->
  Functions.reportReview now id db
  = (<[id := report_update now r]> db, Json 200 "Review reported successfully"%string).
Proof.
  intros Hid Hr. unfold Functions.reportReview.
  destruct id as [|c id]; [congruence|].
  rewrite Hr, (store_update_Some _ _ _ _ Hr). reflexivity.
Qed.

Lemma client_upvote_store (now : Z) (id : docid) (db : store) (r : Review.t) :
  db !! id = Some r ->
  ReviewService.upvoteReview now id db
  = (<[id := helpful_update now r]> db, Resolved true).
Proof.
  intros Hr. unfold ReviewService.upvoteReview.
  rewrite (store_update_Some _ _ _ _ Hr). reflexivity.
Qed.

Lemma client_report_store (now : Z) (id : docid) (db : store) (r : Review.t) :
  db !! id = Some r ->
  ReviewService.reportReview now id db
  = (<[id := report_update now r]> db, Resolved true).
Proof.
  intros Hr. unfold ReviewService.reportReview.
  rewrite (store_update_Some _ _ _ _ Hr). reflexivity.
Qed.

(** A vote or a report either leaves the store as it is or replaces one
    document by its update. *)
Lemma server_upvote_cases (now : Z) (id : docid) (db : store) :
  (Functions.upvoteReview now id db).1 = db
  \/ exists r, db !! id = Some r
       /\ (Functions.upvoteReview now id db).1
          = <[id := helpful_update now r]> db.
Proof.
  destruct id as [|c id]; [left; reflexivity|].
  destruct (db !! (c :: id)) as [r|] eqn:Hr.
  - right. exists r. split; [reflexivity|].
    rewrite (server_upvote_store now _ db r); [reflexivity|discriminate|done].
  - left. unfold Functions.upvoteReview. rewrite Hr. reflexivity.
Qed.

Lemma server_report_cases (now : Z) (id : docid) (db : store) :
  (Functions.reportReview now id db).1 = db
  \/ exists r, db !! id = Some r
       /\ (Functions.reportReview now id db).1
          = <[id := report_update now r]> db.
Proof.
  destruct id as [|c id]; [left; reflexivity|].
  destruct (db !! (c :: id)) as [r|] eqn:Hr.
  - right. exists r. split; [reflexivity|].
    rewrite (server_report_store now _ db r); [reflexivity|discriminate|done].
  - left. unfold Functions.reportReview. rewrite Hr. reflexivity.
Qed.

Lemma client_upvote_cases (now : Z) (id : docid) (db : store) :
  (ReviewService.upvoteReview now id db).1 = db
  \/ exists r, db !! id = Some r
       /\ (ReviewService.upvoteReview now id db).1
          = <[id := helpful_update now r]> db.
Proof.
  destruct (db !! id) as [r|] eqn:Hr.
  - right. exists r. split; [reflexivity|].
    rewrite (client_upvote_store now _ db r Hr). reflexivity.
  - left. unfold ReviewService.upvoteReview.
    rewrite (store_update_None _ _ _ Hr). reflexivity.
Qed.

Lemma client_report_cases (now : Z) (id : docid) (db : store) :
  (ReviewService.reportReview now id db).1 = db
  \/ exists r, db !! id = Some r
       /\ (ReviewService.reportReview now id db).1
          = <[id := report_update now r]> db.
Proof.
  destruct (db !! id) as [r|] eqn:Hr.
  - right. exists r. split; [reflexivity|].
    rewrite (client_report_store now _ db r Hr). reflexivity.
  - left. unfold ReviewService.reportReview.
    rewrite (store_update_None _ _ _ Hr). reflexivity.
Qed.

Lemma server_submit_cases (now : Z) (newId : docid) (d : reviewData.t)
    (db : store) :
  (Functions.submitReview now newId d db).1 = db
  \/ exists r, Functions.submitReview_guard d = None
       /\ Functions.reviewToSubmit now d = Some r
       /\ (Functions.submitReview now newId d db).1 = <[newId := r]> db.
Proof.
  unfold Functions.submitReview.
  destruct (Functions.submitReview_guard d); [left; reflexivity|].
  destruct (Functions.reviewToSubmit now d) as [r|]; [|left; reflexivity].
  right. exists r. auto.
Qed.

Lemma client_submit_cases (now : Z) (newId : docid) (d : reviewData.t)
    (db : store) :
  (ReviewService.submitReview now newId d db).1 = db
  \/ exists r, ReviewService.submitReview_guard d = None
       /\ ReviewService.reviewToSubmit now d = Some r
       /\ (ReviewService.submitReview now newId d db).1 = <[newId := r]> db.
Proof.
  unfold ReviewService.submitReview.
  destruct (ReviewService.submitReview_guard d); [left; reflexivity|].
  destruct (ReviewService.reviewToSubmit now d) as [r|]; [|left; reflexivity].
  right. exists r. auto.
Qed.

(** An invariant of the documents: a property every accepted submission
    establishes and every update keeps holds of every document of every
    reachable store. *)
Section Invariant.

Variable P : Review.t -> Prop.

Hypothesis P_server : forall now d r,
  Functions.submitReview_guard d = None ->
  Functions.reviewToSubmit now d = Some r -> P r.
Hypothesis P_client : forall now d r,
  ReviewService.submitReview_guard d = None ->
  ReviewService.reviewToSubmit now d = Some r -> P r.
Hypothesis P_helpful : forall now r, P r -> P (helpful_update now r).
Hypothesis P_report : forall now r, P r -> P (report_update now r).

Lemma step_invariant (db db' : store) :
  step db db' -> map_Forall (λ _, P) db -> map_Forall (λ _, P) db'.
Proof.
  intros Hstep Hdb. destruct Hstep as
    [now newId d db _ _|now newId d db _ _|now id db|now id db|now id db|now id db].
  - destruct (server_submit_cases now newId d db) as [->|(r & G & B & ->)];
      [assumption|]. apply map_Forall_insert_2; eauto.
  - destruct (client_submit_cases now newId d db) as [->|(r & G & B & ->)];
      [assumption|]. apply map_Forall_insert_2; eauto.
  - destruct (server_upvote_cases now id db) as [->|(r & Hr & ->)];
      [assumption|]. apply map_Forall_insert_2; eauto.
  - destruct (client_upvote_cases now id db) as [->|(r & Hr & ->)];
      [assumption|]. apply map_Forall_insert_2; eauto.
  - destruct (server_report_cases now id db) as [->|(r & Hr & ->)];
      [assumption|]. apply map_Forall_insert_2; eauto.
  - destruct (client_report_cases now id db) as [->|(r & Hr & ->)];
      [assumption|]. apply map_Forall_insert_2; eauto.
Qed.

Lemma reachable_invariant (db : store) :
  reachable db -> map_Forall (λ _, P) db.
Proof.
  induction 1 as [|db db' _ IH Hstep].
  - apply map_Forall_empty.
  - exact (step_invariant db db' Hstep IH).
Qed.

End Invariant.

(** No document of a reachable store has the empty id. *)
Lemma reachable_no_empty_id (db : store) : reachable db -> db !! [] = None.
Proof.
  induction 1 as [|db db' _ IH Hstep]; [apply lookup_empty|].
  destruct Hstep as
    [now newId d db Hn _|now newId d db Hn _|now id db|now id db|now id db|now id db].
  - destruct (server_submit_cases now newId d db) as [->|(r & _ & _ & ->)];
      [assumption|]. rewrite lookup_insert_ne; auto.
  - destruct (client_submit_cases now newId d db) as [->|(r & _ & _ & ->)];
      [assumption|]. rewrite lookup_insert_ne; auto.
  - destruct (server_upvote_cases now id db) as [->|(r & Hr & ->)];
      [assumption|]. rewrite lookup_insert_ne; [assumption|congruence].
  - destruct (client_upvote_cases now id db) as [->|(r & Hr & ->)];
      [assumption|]. rewrite lookup_insert_ne; [assumption|congruence].
  - destruct (server_report_cases now id db) as [->|(r & Hr & ->)];
      [assumption|]. rewrite lookup_insert_ne; [assumption|congruence].
  - destruct (client_report_cases now id db) as [->|(r & Hr & ->)];
      [assumption|]. rewrite lookup_insert_ne; [assumption|congruence].
Qed.

(** Every document of a reachable store has as many votes as helpful
    votes, and none below zero. *)
Lemma reachable_votes_agree (db : store) :
  reachable db -> map_Forall (λ _, votes_agree) db.
Proof.
  apply reachable_invariant; unfold votes_agree.
  - intros now d r _. unfold Functions.reviewToSubmit.
    destruct (reviewData.courseCode d), (reviewData.rating d),
      (reviewData.reviewText d); simpl; intros [= <-]; simpl; lia.
  - intros now d r _. unfold ReviewService.reviewToSubmit.
    destruct (reviewData.courseCode d), (reviewData.rating d),
      (reviewData.reviewText d); simpl; intros [= <-]; simpl; lia.
  - intros now r. simpl. lia.
  - intros now r. simpl. lia.
Qed.

Lemma three_reviews_reachable : reachable three_reviews.
Proof.
  unfold three_reviews.
  repeat (eapply reachable_step;
          [|apply step_submit_server; [discriminate|vm_compute; reflexivity]]).
  apply reachable_empty.
Qed.

(** C8, as stated, fails: on the empty store the client's [upvoteReview]
    of an unknown id is rejected, but not with the kind NotFound. *)
Lemma client_upvote_unknown_not_NotFound :
  (∅ : store) !! js "unknown" = None
  /\ kind_of_promise (ReviewService.upvoteReview 0 (js "unknown") ∅).2
     <> Some NotFound.
Proof. split; [reflexivity|]. vm_compute. congruence. Qed.

(** C8, amended: for a review id the store does not hold, the handlers
    [upvoteReview] and [reportReview] of the server answer 404, of kind
    NotFound, and the functions of the client are rejected with their one
    failure message, of kind StoreFailure; in all four cases the store is
    left as it was. *)
Theorem unknown_id_changes_nothing (now : Z) (reviewId : docid) (db : store) :
  reviewId <> [] -> db !! reviewId = None ->
  Functions.upvoteReview now reviewId db
  = (db, HttpError 404 "Review not found")
  /\ Functions.reportReview now reviewId db
     = (db, HttpError 404 "Review not found")
  /\ kind_of_http (Functions.upvoteReview now reviewId db).2 = Some NotFound
  /\ kind_of_http (Functions.reportReview now reviewId db).2 = Some NotFound
  /\ ReviewService.upvoteReview now reviewId db
     = (db, Rejected "Failed to upvote review")
  /\ ReviewService.reportReview now reviewId db
     = (db, Rejected "Failed to report review")
  /\ kind_of_promise (ReviewService.upvoteReview now reviewId db).2
     = Some StoreFailure
  /\ kind_of_promise (ReviewService.reportReview now reviewId db).2
     = Some StoreFailure.
Proof.
  intros Hid Hnone.
  assert (ReviewService.upvoteReview now reviewId db
          = (db, Rejected "Failed to upvote review")) as Eu.
  { unfold ReviewService.upvoteReview.
    rewrite (store_update_None _ _ _ Hnone). reflexivity. }
  assert (ReviewService.reportReview now reviewId db
          = (db, Rejected "Failed to report review")) as Er.
  { unfold ReviewService.reportReview.
    rewrite (store_update_None _ _ _ Hnone). reflexivity. }
  rewrite Eu, Er.
  unfold Functions.upvoteReview, Functions.reportReview.
  destruct reviewId as [|c reviewId]; [congruence|].
  rewrite Hnone. split_and!; reflexivity.
Qed.

Lemma unknown_id_changes_nothing_witness :
  (js "r9" <> [] /\ three_reviews !! js "r9" = None)
  /\ Functions.upvoteReview 7 (js "r9") three_reviews
     = (three_reviews, HttpError 404 "Review not found").
Proof.
  assert (js "r9" <> []) as Hid by discriminate.
  assert (three_reviews !! js "r9" = None) as Hnone by (vm_compute; reflexivity).
  split; [split; assumption|].
  exact (proj1 (unknown_id_changes_nothing 7 (js "r9") three_reviews Hid Hnone)).
Defined.

(** C9: in every reachable store, every review has at most as many
    helpful votes as votes; a helpful mark on it, through the server or
    through the client, succeeds and leaves it with exactly one more of
    each; a report leaves both counters as they are; and a record starts
    with both at 0. *)
Theorem helpful_votes_monotone (db : store) (reviewId : docid) (r : Review.t)
    (now : Z) :
  reachable db -> db !! reviewId = Some r ->
  Review.helpfulVotes r <= Review.totalVotes r
  /\ (exists u,
        Functions.upvoteReview now reviewId db
        = (<[reviewId := u]> db,
           Json 200 (Review.helpfulVotes u, Review.totalVotes u))
        /\ ReviewService.upvoteReview now reviewId db
           = (<[reviewId := u]> db, Resolved true)
        /\ Review.helpfulVotes u = Review.helpfulVotes r + 1
        /\ Review.totalVotes u = Review.totalVotes r + 1)
  /\ (exists u,
        (Functions.reportReview now reviewId db).1 = <[reviewId := u]> db
        /\ (ReviewService.reportReview now reviewId db).1
           = <[reviewId := u]> db
        /\ Review.helpfulVotes u = Review.helpfulVotes r
        /\ Review.totalVotes u = Review.totalVotes r)
  /\ (forall d u,
        Functions.reviewToSubmit now d = Some u
        \/ ReviewService.reviewToSubmit now d = Some u ->
        Review.helpfulVotes u = 0 /\ Review.totalVotes u = 0).
Proof.
  intros Hreach Hr.
  assert (reviewId <> []) as Hid.
  { intros ->. rewrite (reachable_no_empty_id db Hreach) in Hr. discriminate. }
  split_and!.
  - destruct (reachable_votes_agree db Hreach reviewId r Hr) as [_ E]. lia.
  - exists (helpful_update now r). split_and!; try reflexivity.
    + apply server_upvote_store; assumption.
    + apply client_upvote_store; assumption.
  - exists (report_update now r). split_and!; try reflexivity.
    + rewrite (server_report_store now reviewId db r Hid Hr). reflexivity.
    + rewrite (client_report_store now reviewId db r Hr). reflexivity.
  - intros d u [H|H]; revert H;
      unfold Functions.reviewToSubmit, ReviewService.reviewToSubmit;
      destruct (reviewData.courseCode d), (reviewData.rating d),
        (reviewData.reviewText d); simpl; intros [= <-]; split; reflexivity.
Qed.

Lemma helpful_votes_monotone_witness :
  reachable three_reviews
  /\ match three_reviews !! js "r1" with
     | Some r => Review.helpfulVotes r <= Review.totalVotes r
     | None => False
     end.
Proof.
  split; [apply three_reviews_reachable|].
  destruct (three_reviews !! js "r1") as [r|] eqn:E.
  - exact (proj1 (helpful_votes_monotone three_reviews (js "r1") r 0
                    three_reviews_reachable E)).
  - vm_compute in E. discriminate E.
Defined.

(** ** The quotient of an average and its rounding *)

Lemma round_nearest_even_error (n d : Z) :
  0 < d ->
  - d <= 2 * (round_nearest_even n d * d - n) <= d.
Proof.
  intros Hd. unfold round_nearest_even.
  pose proof (Z.div_mod n d ltac:(lia)) as E.
  pose proof (Z.mod_pos_bound n d Hd) as B.
  set (q := n / d) in *. set (r := n mod d) in *.
  destruct (Z.ltb_spec (2 * r) d); [nia|].
  destruct (Z.ltb_spec d (2 * r)); [nia|].
  destruct (Z.even q); nia.
Qed.

(** For a quotient below 2^53 the exponent is negative or zero, the
    significand is the scaled quotient rounded to an integer, and the
    scaled quotient is at least 2^52. *)
Lemma div64_pos_spec (a b : Z) :
  0 < a -> 0 < b -> a < 2 ^ 53 ->
  exists m k,
    div64_pos a b = (m, - k) /\ 0 <= k
    /\ 2 ^ 52 * b <= a * 2 ^ k
    /\ - b <= 2 * (m * b - a * 2 ^ k) <= b.
Proof.
  intros Ha Hb Hlt. unfold div64_pos.
  pose proof (Z.log2_spec a Ha) as [La Ua].
  pose proof (Z.log2_spec b Hb) as [Lb Ub].
  pose proof (Z.log2_nonneg a) as Na.
  pose proof (Z.log2_nonneg b) as Nb.
  assert (Z.log2 a < 53) as La53 by (apply Z.log2_lt_pow2; lia).
  set (la := Z.log2 a) in *. set (lb := Z.log2 b) in *.
  set (e0 := la - lb - 52).
  assert (e0 <= 0) as He0 by (unfold e0; lia).
  assert (Z.max 0 e0 = 0) as M0 by lia.
  assert (Z.max 0 (- e0) = - e0) as M1 by lia.
  rewrite M0, M1. rewrite Z.pow_0_r, Z.mul_1_r.
  destruct (Z.leb_spec (2 ^ 52 * b) (a * 2 ^ (- e0))) as [Hle|Hgt].
  - exists (round_nearest_even (a * 2 ^ (- e0)) b), (- e0).
    rewrite Z.opp_involutive, M0, M1, Z.pow_0_r, Z.mul_1_r.
    split; [reflexivity|]. split; [lia|]. split; [assumption|].
    apply round_nearest_even_error. assumption.
  - assert (Z.max 0 (e0 - 1) = 0) as M2 by lia.
    assert (Z.max 0 (- (e0 - 1)) = - e0 + 1) as M3 by lia.
    rewrite M2, M3, Z.pow_0_r, Z.mul_1_r.
    exists (round_nearest_even (a * 2 ^ (- e0 + 1)) b), (- e0 + 1).
    split; [f_equal; lia|]. split; [lia|].
    split; [|apply round_nearest_even_error; assumption].
    rewrite Z.pow_add_r by lia. change (2 ^ 1) with 2.
    assert (2 ^ (52 + lb) <= a * 2 ^ (- e0)) as Hlow.
    { replace (52 + lb) with (la + (- e0)) by (unfold e0; lia).
      rewrite Z.pow_add_r by lia.
      apply Z.mul_le_mono_nonneg_r; [apply Z.pow_nonneg; lia|assumption]. }
    rewrite Z.pow_add_r in Hlow by lia.
    rewrite Z.pow_succ_r in Ub by lia.
    nia.
Qed.

Lemma round_half_up_zero (b : Z) : 0 < b -> Spec.round_half_up 0 b = 0.
Proof.
  intros Hb. unfold Spec.round_half_up. apply Z.div_small. lia.
Qed.

Lemma scaled_lt (p x y : Z) : 0 < p -> p * x < p * y -> x < y.
Proof. intros Hp H. apply (Z.mul_lt_mono_pos_l p); assumption. Qed.

(** [div64] is the division of the machine on every total up to 250 over
    every count up to 50, and at the ends of the safe range. *)
Example div64_is_binary64_division :
  forallb (λ a, forallb (λ b, same_value (div64 a b) (primitive_div a b))
                  (seqZ 1 50))
    (seqZ (- 250) 501) = true
  /\ forallb (λ ab, same_value (div64 ab.1 ab.2) (primitive_div ab.1 ab.2))
       [(2 ^ 53 - 1, 1); (2 ^ 53 - 1, 2 ^ 53 - 2); (1, 2 ^ 53 - 1);
        (2 ^ 53 - 1, 3); (2 ^ 52 + 1, 2 ^ 53 - 1); (29, 20)] = true.
Proof. split; vm_compute; reflexivity. Qed.

(** The heart of the rounding policy: [toFixed(1)] of the binary64
    quotient is the round-half-up of the exact quotient, or one tenth
    below it, and it is the round-half-up whenever the exact quotient is
    not halfway between two tenths. *)
Lemma average_round_half_up (a b : Z) :
  0 <= a -> 0 < b -> 20 * a < 2 ^ 53 ->
  Spec.round_half_up a b - 1 <= average a b <= Spec.round_half_up a b
  /\ (~ Spec.tie a b -> average a b = Spec.round_half_up a b).
Proof.
  intros Ha Hb Hlt. unfold average, div64.
  destruct (Z.eqb_spec a 0) as [->|Hne].
  { rewrite round_half_up_zero by assumption. vm_compute. split; [|reflexivity].
    split; discriminate. }
  destruct (Z.ltb_spec 0 a) as [Hpos|]; [|lia].
  destruct (div64_pos_spec a b Hpos Hb ltac:(lia)) as (m & k & -> & Hk & F1 & F2).
  unfold toFixed1, toFixed1_abs, Spec.round_half_up, Spec.tie.
  assert (0 < 2 ^ k) as HK by (apply Z.pow_pos_nonneg; lia).
  assert (0 < m) as Hm by nia.
  destruct (Z.ltb_spec m 0); [lia|].
  replace (Z.max 0 (- k)) with 0 by lia.
  replace (Z.max 0 (- - k)) with k by lia.
  rewrite Z.pow_0_r, Z.mul_1_r, Z.pow_add_r by lia. change (2 ^ 1) with 2.
  set (K := 2 ^ k) in *.
  assert (10 * b < K) as HbK by nia.
  pose proof (Z.div_mod (20 * m + K) (K * 2) ltac:(lia)) as En.
  pose proof (Z.mod_pos_bound (20 * m + K) (K * 2) ltac:(lia)) as Bn.
  pose proof (Z.div_mod (20 * a + b) (2 * b) ltac:(lia)) as EN.
  pose proof (Z.mod_pos_bound (20 * a + b) (2 * b) ltac:(lia)) as BN.
  set (n := (20 * m + K) / (K * 2)) in *.
  set (N := (20 * a + b) / (2 * b)) in *.
  set (rn := (20 * m + K) mod (K * 2)) in *.
  set (rN := (20 * a + b) mod (2 * b)) in *.
  assert (0 < K * b) as HKb by (apply Z.mul_pos_pos; lia).
  assert (2 * (K * b) * (n - N) = K * rN + 10 * (2 * (m * b - a * K)) - b * rn)
    as Key.
  { pose proof (f_equal (fun x => x * b) En) as E1.
    pose proof (f_equal (fun x => x * K) EN) as E2.
    simpl in E1, E2. lia. }
  assert (0 <= K * rN <= K * (2 * b - 1)) as BT.
  { split; [apply Z.mul_nonneg_nonneg; lia|].
    apply Z.mul_le_mono_nonneg_l; lia. }
  assert (0 <= b * rn <= b * (K * 2 - 1)) as BU.
  { split; [apply Z.mul_nonneg_nonneg; lia|].
    apply Z.mul_le_mono_nonneg_l; lia. }
  assert (n - N < 1) as Hup.
  { apply (scaled_lt (2 * (K * b))); lia. }
  assert (- 2 < n - N) as Hlow.
  { apply (scaled_lt (2 * (K * b))); lia. }
  split; [lia|].
  intros Htie.
  assert (K * 1 <= K * rN) as BT'.
  { apply Z.mul_le_mono_nonneg_l; lia. }
  assert (- 1 < n - N); [|lia].
  apply (scaled_lt (2 * (K * b))); lia.
Qed.

(** ** Aggregation *)

Lemma sum_cons (x : Z) (xs : list Z) : sum (x :: xs) = x + sum xs.
Proof. reflexivity. Qed.

Lemma present_cons (field : Review.t -> option Z) (r : Review.t)
    (rs : list Review.t) :
  present field (r :: rs)
  = match field r with
    | Some v => v :: present field rs
    | None => present field rs
    end.
Proof. reflexivity. Qed.

(** The [forEach] of [getReviews] and of [getReviewsByCourse] adds up the
    ratings. *)
Lemma fold_totalRating (snapshot : list (docid * Review.t)) (acc : Z) :
  fold_left (λ total doc, total + Review.rating doc.2) snapshot acc
  = acc + sum (Review.rating <$> snapshot.*2).
Proof.
  revert acc. induction snapshot as [|doc snapshot IH]; intros acc.
  - unfold sum. simpl. lia.
  - cbn [fold_left]. rewrite IH, !fmap_cons, sum_cons. lia.
Qed.

(** On reviews whose stored optional ratings are not 0, the [forEach] of
    [getCourseStats] adds up, for each optional rating, the values that
    are present and counts them. *)
Lemma fold_accumulate (snapshot : list Review.t) (acc : Totals.t) :
  Forall optionals_nonzero snapshot ->
  fold_left Functions.accumulate snapshot acc
  = {| Totals.totalRating :=
         Totals.totalRating acc + sum (Review.rating <$> snapshot);
       Totals.totalDifficulty :=
         Totals.totalDifficulty acc
         + sum (present Review.difficultyRating snapshot);
       Totals.totalWorkload :=
         Totals.totalWorkload acc
         + sum (present Review.workloadRating snapshot);
       Totals.totalProfHelpfulness :=
         Totals.totalProfHelpfulness acc
         + sum (present Review.profHelpfulnessRating snapshot);
       Totals.difficultyCount :=
         Totals.difficultyCount acc
         + Z.of_nat (length (present Review.difficultyRating snapshot));
       Totals.workloadCount :=
         Totals.workloadCount acc
         + Z.of_nat (length (present Review.workloadRating snapshot));
       Totals.profHelpfulnessCount :=
         Totals.profHelpfulnessCount acc
         + Z.of_nat (length (present Review.profHelpfulnessRating snapshot)) |}.
Proof.
  intros Hnz. revert acc.
  induction Hnz as [|data snapshot (Hd & Hw & Hp) _ IH]; intros acc.
  - destruct acc. unfold sum. simpl. f_equal; lia.
  - cbn [fold_left]. rewrite IH. clear IH.
    rewrite fmap_cons, sum_cons, !present_cons.
    unfold Functions.accumulate, optional_nonzero, truthy_num in *.
    cbn [Totals.totalRating Totals.totalDifficulty
         Totals.totalWorkload Totals.totalProfHelpfulness
         Totals.difficultyCount Totals.workloadCount
         Totals.profHelpfulnessCount].
    destruct (Review.difficultyRating data) as [d|],
      (Review.workloadRating data) as [w|],
      (Review.profHelpfulnessRating data) as [h|];
      repeat match goal with
        | H : ?v <> 0 |- context [?v =? 0] =>
            destruct (Z.eqb_spec v 0); [contradiction|]
        end;
      cbn [negb length]; rewrite ?sum_cons; f_equal; lia.
Qed.

Lemma average_or_zero_mean (values : list Z) :
  Functions.average_or_zero (sum values) (Z.of_nat (length values))
  = mean_tenths values.
Proof.
  unfold Functions.average_or_zero, mean_tenths.
  destruct values as [|v values]; [reflexivity|].
  destruct (Z.eqb_spec (Z.of_nat (length (v :: values))) 0) as [E|];
    [simpl in E; lia|reflexivity].
Qed.

Lemma stats_answer_means (courseCode : jsstring) (snapshot : list Review.t) :
  Forall optionals_nonzero snapshot ->
  Functions.stats_answer courseCode snapshot
  = {| CourseStats.courseCode := courseCode;
       CourseStats.totalReviews := Z.of_nat (length snapshot);
       CourseStats.averageRating := mean_tenths (Review.rating <$> snapshot);
       CourseStats.averageDifficulty :=
         mean_tenths (present Review.difficultyRating snapshot);
       CourseStats.averageWorkload :=
         mean_tenths (present Review.workloadRating snapshot);
       CourseStats.averageProfHelpfulness :=
         mean_tenths (present Review.profHelpfulnessRating snapshot) |}.
Proof.
  intros Hnz. destruct snapshot as [|data snapshot]; [reflexivity|].
  unfold Functions.stats_answer. rewrite (fold_accumulate _ _ Hnz).
  cbn [Totals.totalRating Totals.totalDifficulty
       Totals.totalWorkload Totals.totalProfHelpfulness
       Totals.difficultyCount Totals.workloadCount
       Totals.profHelpfulnessCount].
  rewrite !Z.add_0_l, !average_or_zero_mean.
  f_equal. rewrite fmap_cons. unfold mean_tenths. cbn [length].
  rewrite length_fmap. reflexivity.
Qed.

(** The documents a query answers are documents of the store. *)
Lemma where_courseCode_elem (courseCode : jsstring) (db : store)
    (id : docid) (r : Review.t) :
  (id, r) ∈ where_courseCode courseCode db <->
  db !! id = Some r /\ Review.courseCode r = courseCode.
Proof.
  unfold where_courseCode. rewrite list_elem_of_filter, elem_of_map_to_list.
  simpl. tauto.
Qed.

Lemma where_courseCode_none (courseCode : jsstring) (db : store) :
  (forall id r, db !! id = Some r -> Review.courseCode r <> courseCode) ->
  where_courseCode courseCode db = [].
Proof.
  intros Hno.
  destruct (where_courseCode courseCode db) as [|[id r] l] eqn:E;
    [reflexivity|].
  assert ((id, r) ∈ where_courseCode courseCode db) as Hin
    by (rewrite E; left).
  apply where_courseCode_elem in Hin as [Hr Hc].
  destruct (Hno id r Hr Hc).
Qed.

Lemma where_courseCode_Forall (P : Review.t -> Prop) (courseCode : jsstring)
    (db : store) :
  map_Forall (λ _, P) db -> Forall P (where_courseCode courseCode db).*2.
Proof.
  intros Hdb. apply Forall_fmap, Forall_forall. intros [id r] Hin.
  apply where_courseCode_elem in Hin as [Hr _]. exact (Hdb id r Hr).
Qed.

(** No optional rating of a reachable store is 0. *)
Lemma reachable_optionals_nonzero (db : store) :
  reachable db -> map_Forall (λ _, optionals_nonzero) db.
Proof.
  apply reachable_invariant; unfold optionals_nonzero.
  - intros now d r _. unfold Functions.reviewToSubmit.
    destruct (reviewData.courseCode d), (reviewData.rating d),
      (reviewData.reviewText d); simpl; intros [= <-]; simpl.
    unfold Functions.optional_rating, optional_nonzero, parseInt.
    destruct (reviewData.difficultyRating d) as [dr|],
      (reviewData.workloadRating d) as [wr|],
      (reviewData.profHelpfulnessRating d) as [pr|]; simpl;
      split_tests; simpl; tauto.
  - intros now d r _. unfold ReviewService.reviewToSubmit.
    destruct (reviewData.courseCode d), (reviewData.rating d),
      (reviewData.reviewText d); simpl; intros [= <-]; simpl.
    unfold ReviewService.optional_rating, optional_nonzero.
    destruct (reviewData.difficultyRating d) as [dr|],
      (reviewData.workloadRating d) as [wr|],
      (reviewData.profHelpfulnessRating d) as [pr|]; simpl;
      split_tests; simpl; tauto.
  - intros now r. simpl. tauto.
  - intros now r. simpl. tauto.
Qed.

(** Every overall rating of a reachable store lies in [1,5]. *)
Lemma reachable_rating_in_range (db : store) :
  reachable db -> map_Forall (λ _, rating_in_range) db.
Proof.
  apply reachable_invariant; unfold rating_in_range.
  - intros now d r G. apply server_guard_accepts in G as (_ & Hr & _).
    unfold Spec.rating_invalid in Hr. unfold Functions.reviewToSubmit.
    destruct (reviewData.courseCode d), (reviewData.rating d),
      (reviewData.reviewText d); simpl; intros [= <-]; simpl.
    unfold parseInt. lia.
  - intros now d r G. apply client_guard_accepts in G as (_ & Hr & _).
    unfold Spec.rating_invalid in Hr. unfold ReviewService.reviewToSubmit.
    destruct (reviewData.courseCode d), (reviewData.rating d),
      (reviewData.reviewText d); simpl; intros [= <-]; simpl. lia.
  - intros now r. simpl. tauto.
  - intros now r. simpl. tauto.
Qed.


Lemma server_reviews_answer_mean (snapshot : list (docid * Review.t)) :
  Functions.reviews_answer snapshot
  = {| ReviewList.reviews := snapshot;
       ReviewList.averageRating := mean_tenths (Review.rating <$> snapshot.*2);
       ReviewList.totalReviews := Z.of_nat (length snapshot) |}.
Proof.
  destruct snapshot as [|doc snapshot]; [reflexivity|].
  unfold Functions.reviews_answer. rewrite fold_totalRating, Z.add_0_l.
  rewrite !fmap_cons. unfold mean_tenths. cbn [length].
  rewrite !length_fmap. reflexivity.
Qed.

Lemma client_reviews_answer_mean (snapshot : list (docid * Review.t)) :
  ReviewService.reviews_answer snapshot
  = {| ReviewList.reviews := snapshot;
       ReviewList.averageRating := mean_tenths (Review.rating <$> snapshot.*2);
       ReviewList.totalReviews := Z.of_nat (length snapshot) |}.
Proof.
  destruct snapshot as [|doc snapshot]; [reflexivity|].
  unfold ReviewService.reviews_answer. rewrite fold_totalRating, Z.add_0_l.
  destruct (Z.ltb_spec 0 (Z.of_nat (length (doc :: snapshot)))) as [_|H];
    [|simpl in H; lia].
  rewrite !fmap_cons. unfold mean_tenths, average. cbn [length].
  rewrite !length_fmap. reflexivity.
Qed.

Lemma sum_bounds (values : list Z) :
  Forall (λ v, 1 <= v <= 5) values ->
  Z.of_nat (length values) <= sum values <= 5 * Z.of_nat (length values).
Proof.
  induction 1 as [|v values Hv _ IH].
  - unfold sum. simpl. lia.
  - rewrite sum_cons. cbn [length]. lia.
Qed.

Lemma present_in_range (field : Review.t -> option Z)
    (reviews : list Review.t) :
  Forall (λ r, optional_in_range (field r)) reviews ->
  Forall (λ v, 1 <= v <= 5) (present field reviews)
  /\ (length (present field reviews) <= length reviews)%nat.
Proof.
  induction 1 as [|r reviews Hr _ [IH1 IH2]].
  - split; [constructor|reflexivity].
  - rewrite present_cons. unfold optional_in_range in Hr.
    destruct (field r) as [v|]; cbn [length]; split; auto with lia.
Qed.

(** A mean of values in [1,5] is rounded half up, except that at a tie it
    may be one tenth lower. *)
Lemma mean_tenths_rounds (values : list Z) :
  Forall (λ v, 1 <= v <= 5) values ->
  100 * Z.of_nat (length values) < 2 ^ 53 ->
  rounds_mean values (mean_tenths values).
Proof.
  intros Hv Hlen. pose proof (sum_bounds values Hv) as Hsum.
  destruct values as [|v values]; [reflexivity|].
  unfold rounds_mean, mean_tenths.
  destruct (average_round_half_up (sum (v :: values))
              (Z.of_nat (length (v :: values)))) as [[H1 H2] H3];
    [lia|simpl; lia|lia|].
  auto.
Qed.

Lemma ratings_in_range_nonzero (r : Review.t) :
  ratings_in_range r -> optionals_nonzero r.
Proof.
  unfold ratings_in_range, optionals_nonzero, optional_in_range,
    optional_nonzero.
  destruct (Review.difficultyRating r), (Review.workloadRating r),
    (Review.profHelpfulnessRating r); intuition lia.
Qed.



(** The statistics of a course in a reachable store. *)
Lemma reachable_course_stats (db : store) (courseCode : jsstring) :
  reachable db -> courseCode <> [] ->
  let reviews := (where_courseCode courseCode db).*2 in
  Functions.getCourseStats courseCode db
  = Json 200
      {| CourseStats.courseCode := courseCode;
         CourseStats.totalReviews := Z.of_nat (length reviews);
         CourseStats.averageRating := mean_tenths (Review.rating <$> reviews);
         CourseStats.averageDifficulty :=
           mean_tenths (present Review.difficultyRating reviews);
         CourseStats.averageWorkload :=
           mean_tenths (present Review.workloadRating reviews);
         CourseStats.averageProfHelpfulness :=
           mean_tenths (present Review.profHelpfulnessRating reviews) |}.
Proof.
  intros Hreach Hcode reviews. unfold Functions.getCourseStats.
  destruct courseCode as [|c courseCode]; [congruence|].
  rewrite stats_answer_means; [reflexivity|].
  apply where_courseCode_Forall, reachable_optionals_nonzero, Hreach.
Qed.

(** In a reachable store every overall rating lies in [1,5], so the
    average [getReviews] answers for a course is the exact mean rounded
    half up, or one tenth below it at a tie. *)
Lemma reachable_average_rating (db : store) (courseCode : jsstring) :
  reachable db ->
  100 * Z.of_nat (size db) < 2 ^ 53 ->
  let snapshot := orderBy_helpfulVotes_desc (where_courseCode courseCode db) in
  rounds_mean (Review.rating <$> snapshot.*2)
    (ReviewList.averageRating (Functions.reviews_answer snapshot)).
Proof.
  intros Hreach Hsize snapshot.
  assert (snapshot ≡ₚ where_courseCode courseCode db) as Hperm
    by apply merge_sort_Permutation.
  rewrite server_reviews_answer_mean. cbn [ReviewList.averageRating].
  apply mean_tenths_rounds.
  - apply Forall_fmap. rewrite Hperm.
    apply (where_courseCode_Forall rating_in_range),
      reachable_rating_in_range, Hreach.
  - rewrite !length_fmap, Hperm. unfold where_courseCode.
    pose proof (length_filter (λ kv : docid * Review.t,
                   Review.courseCode kv.2 = courseCode) (map_to_list db)) as Hf.
    rewrite length_map_to_list in Hf. lia.
Qed.

(** C6, as stated, fails: twenty reviews, eleven with rating 1 and nine
    with rating 2, have the mean 29/20 = 1.45, which rounds half up to
    1.5; [getCourseStats], [getReviews] and [getReviewsByCourse] answer
    1.4. *)
Lemma tie_rounded_down :
  sum (Review.rating <$> twenty_reviews) = 29
  /\ length twenty_reviews = 20%nat
  /\ Spec.round_half_up 29 20 = 15
  /\ CourseStats.averageRating
       (Functions.stats_answer (js "CASCS131") twenty_reviews) = 14
  /\ ReviewList.averageRating (Functions.reviews_answer twenty_snapshot) = 14
  /\ ReviewList.averageRating (ReviewService.reviews_answer twenty_snapshot)
     = 14
  /\ CourseStats.averageRating
       (Functions.stats_answer (js "CASCS131") twenty_reviews)
     <> Spec.round_half_up (sum (Review.rating <$> twenty_reviews))
          (Z.of_nat (length twenty_reviews)).
Proof. vm_compute. split_and!; try reflexivity. discriminate. Qed.

(** C6, amended: over reviews whose ratings lie in [1,5], each of the
    five averages of [getCourseStats] and the average of [getReviews] and
    of [getReviewsByCourse] is the exact mean rounded half up to one
    decimal place whenever the exact mean is not halfway between two
    tenths, and at such a tie it is that value or one tenth below it; the
    same rounding is applied to all of them. *)
Theorem averages_round_half_up_off_ties (courseCode : jsstring)
    (snapshot : list (docid * Review.t)) :
  Forall ratings_in_range snapshot.*2 ->
  100 * Z.of_nat (length snapshot) < 2 ^ 53 ->
  let reviews := snapshot.*2 in
  let stats := Functions.stats_answer courseCode reviews in
  rounds_mean (Review.rating <$> reviews) (CourseStats.averageRating stats)
  /\ rounds_mean (present Review.difficultyRating reviews)
       (CourseStats.averageDifficulty stats)
  /\ rounds_mean (present Review.workloadRating reviews)
       (CourseStats.averageWorkload stats)
  /\ rounds_mean (present Review.profHelpfulnessRating reviews)
       (CourseStats.averageProfHelpfulness stats)
  /\ rounds_mean (Review.rating <$> reviews)
       (ReviewList.averageRating (Functions.reviews_answer snapshot))
  /\ rounds_mean (Review.rating <$> reviews)
       (ReviewList.averageRating (ReviewService.reviews_answer snapshot)).
Proof.
  intros Hrange Hlen reviews stats. subst stats.
  assert (length reviews = length snapshot) as El by apply length_fmap.
  rewrite stats_answer_means
    by (eapply Forall_impl; [exact Hrange|apply ratings_in_range_nonzero]).
  rewrite server_reviews_answer_mean, client_reviews_answer_mean.
  cbn [CourseStats.averageRating CourseStats.averageDifficulty
       CourseStats.averageWorkload CourseStats.averageProfHelpfulness
       ReviewList.averageRating].
  assert (rounds_mean (Review.rating <$> reviews)
            (mean_tenths (Review.rating <$> reviews))) as Hrating.
  { apply mean_tenths_rounds.
    - apply Forall_fmap. eapply Forall_impl; [exact Hrange|].
      intros r (Hr & _). exact Hr.
    - rewrite length_fmap. lia. }
  assert (forall field,
            Forall (λ r, optional_in_range (field r)) reviews ->
            rounds_mean (present field reviews)
              (mean_tenths (present field reviews))) as Hopt.
  { intros field Hf. destruct (present_in_range field reviews Hf) as [Hv Hl].
    apply mean_tenths_rounds; [exact Hv|lia]. }
  split_and!; try exact Hrating; apply Hopt;
    (eapply Forall_impl; [exact Hrange|]); intros r (_ & Hd & Hw & Hp);
    assumption.
Qed.

Lemma averages_round_half_up_off_ties_witness :
  (Forall ratings_in_range twenty_snapshot.*2
   /\ 100 * Z.of_nat (length twenty_snapshot) < 2 ^ 53)
  /\ rounds_mean (Review.rating <$> twenty_snapshot.*2)
       (CourseStats.averageRating
          (Functions.stats_answer (js "CASCS131") twenty_snapshot.*2)).
Proof.
  assert (Forall ratings_in_range twenty_snapshot.*2) as Hrange.
  { apply (bool_decide_unpack _). vm_compute. exact I. }
  assert (100 * Z.of_nat (length twenty_snapshot) < 2 ^ 53) as Hlen.
  { vm_compute. reflexivity. }
  split; [split; assumption|].
  exact (proj1 (averages_round_half_up_off_ties (js "CASCS131")
                  twenty_snapshot Hrange Hlen)).
Defined.

(** C7: when no review of the store carries the course code, the
    statistics are all 0 and the list of reviews is empty with an average
    of 0 and a count of 0, on the server and on the client. *)
Theorem aggregation_of_no_review (courseCode : jsstring) (db : store) :
  courseCode <> [] ->
  (forall id r, db !! id = Some r -> Review.courseCode r <> courseCode) ->
  Functions.getCourseStats courseCode db
  = Json 200 {| CourseStats.courseCode := courseCode;
                CourseStats.totalReviews := 0;
                CourseStats.averageRating := 0;
                CourseStats.averageDifficulty := 0;
                CourseStats.averageWorkload := 0;
                CourseStats.averageProfHelpfulness := 0 |}
  /\ Functions.getReviews (Some courseCode) db
     = Json 200 {| ReviewList.reviews := [];
                   ReviewList.averageRating := 0;
                   ReviewList.totalReviews := 0 |}
  /\ ReviewService.getReviewsByCourse courseCode db
     = Resolved {| ReviewList.reviews := [];
                   ReviewList.averageRating := 0;
                   ReviewList.totalReviews := 0 |}.
Proof.
  intros Hcode Hnone.
  unfold Functions.getCourseStats, Functions.getReviews,
    ReviewService.getReviewsByCourse.
  rewrite (where_courseCode_none courseCode db Hnone).
  destruct courseCode as [|c courseCode]; [congruence|].
  split_and!; reflexivity.
Qed.

Lemma aggregation_of_no_review_witness :
  (js "CASCS132" <> []
   /\ forall id r, three_reviews !! id = Some r ->
                   Review.courseCode r <> js "CASCS132")
  /\ Functions.getCourseStats (js "CASCS132") three_reviews
     = Json 200 (CourseStats.mk (js "CASCS132") 0 0 0 0 0).
Proof.
  assert (js "CASCS132" <> []) as Hcode by discriminate.
  assert (forall id r, three_reviews !! id = Some r ->
                       Review.courseCode r <> js "CASCS132") as Hnone.
  { apply (bool_decide_unpack
             (map_Forall (λ _ r, Review.courseCode r <> js "CASCS132")
                three_reviews)).
    vm_compute. exact I. }
  split; [split; assumption|].
  exact (proj1 (aggregation_of_no_review (js "CASCS132") three_reviews
                  Hcode Hnone)).
Defined.


(** * Further properties *)

(** ** The HTTP surface *)

Lemma split_slash_nonempty (s : jsstring) : split_slash s <> [].
Proof.
  destruct s as [|c s]; simpl; [discriminate|].
  destruct (c =? 47)%N; [discriminate|].
  destruct (split_slash s); discriminate.
Qed.

Lemma split_slash_at_slash (p q : jsstring) :
  split_slash (p ++ 47%N :: q) = split_slash p ++ split_slash q.
Proof.
  induction p as [|c p IH]; [reflexivity|].
  cbn [app split_slash]. rewrite IH.
  destruct (c =? 47)%N; [reflexivity|].
  pose proof (split_slash_nonempty p) as Hp.
  destruct (split_slash p) as [|piece pieces]; [congruence|reflexivity].
Qed.

Lemma split_slash_no_slash (s : jsstring) :
  47%N ∉ s -> split_slash s = [s].
Proof.
  induction s as [|c s IH]; intros Hs; [reflexivity|].
  apply not_elem_of_cons in Hs as [Hc Hs].
  simpl. rewrite (IH Hs).
  destruct (N.eqb_spec c 47); [congruence|reflexivity].
Qed.

(** X1: when the path ends in two pieces free of slashes, the parameter
    the handlers take from it is the first of the two, whatever comes
    before; a trailing slash makes the last piece empty and moves the
    parameter one piece to the right. *)
Theorem path_parameter_penultimate (p x y : jsstring) :
  47%N ∉ x -> 47%N ∉ y ->
  path_parameter (p ++ 47%N :: x ++ 47%N :: y) = Some x.
Proof.
  intros Hx Hy. unfold path_parameter.
  rewrite split_slash_at_slash, split_slash_at_slash,
    (split_slash_no_slash x Hx), (split_slash_no_slash y Hy).
  rewrite !length_app. cbn [length].
  destruct (Z.ltb_spec (Z.of_nat (length (split_slash p) + (1 + 1)) - 2) 0);
    [lia|].
  replace (Z.to_nat (Z.of_nat (length (split_slash p) + (1 + 1)) - 2))
    with (length (split_slash p) + 0)%nat by lia.
  rewrite lookup_app_r by lia.
  replace (length (split_slash p) + 0 - length (split_slash p))%nat
    with 0%nat by lia.
  reflexivity.
Qed.

Lemma path_parameter_penultimate_witness :
  ((47%N ∉ js "abc123") /\ (47%N ∉ js "helpful"))
  /\ path_parameter (js "/api/reviews/abc123/helpful") = Some (js "abc123")
  /\ path_parameter (js "/api/reviews/abc123/helpful/") = Some (js "helpful").
Proof.
  assert (47%N ∉ js "abc123") as Hx
    by (apply (bool_decide_unpack _); vm_compute; exact I).
  assert (47%N ∉ js "helpful") as Hy
    by (apply (bool_decide_unpack _); vm_compute; exact I).
  assert (47%N ∉ @nil N) as Hn by apply not_elem_of_nil.
  split; [split; assumption|]. split.
  - exact (path_parameter_penultimate (js "/api/reviews") (js "abc123")
             (js "helpful") Hx Hy).
  - exact (path_parameter_penultimate (js "/api/reviews/abc123")
             (js "helpful") [] Hy Hn).
Defined.

Lemma path_parameter_None (path : jsstring) :
  path_parameter path = None <-> 47%N ∉ path.
Proof.
  split.
  - intros Hnone Hin.
    apply list_elem_of_split in Hin as (p & q & ->).
    unfold path_parameter in Hnone. rewrite split_slash_at_slash in Hnone.
    pose proof (split_slash_nonempty p) as Hp.
    pose proof (split_slash_nonempty q) as Hq.
    rewrite length_app in Hnone.
    destruct (split_slash p) as [|a l]; [congruence|].
    destruct (split_slash q) as [|b k]; [congruence|].
    cbn [length] in Hnone.
    destruct (Z.ltb_spec (Z.of_nat (S (length l) + S (length k)) - 2) 0);
      [lia|].
    apply lookup_ge_None in Hnone. rewrite length_app in Hnone.
    cbn [length] in Hnone. lia.
  - intros Hno. unfold path_parameter.
    rewrite (split_slash_no_slash path Hno). reflexivity.
Qed.



Lemma server_submit_error_keeps_store (now : Z) (newId : docid)
    (d : reviewData.t) (db : store) :
  status_of (Functions.submitReview now newId d db).2 <> 201 ->
  (Functions.submitReview now newId d db).1 = db.
Proof.
  unfold Functions.submitReview.
  destruct (Functions.submitReview_guard d); [reflexivity|].
  destruct (Functions.reviewToSubmit now d); [|reflexivity].
  simpl. congruence.
Qed.

Lemma server_upvote_error_keeps_store (now : Z) (id : docid) (db : store) :
  status_of (Functions.upvoteReview now id db).2 <> 200 ->
  (Functions.upvoteReview now id db).1 = db.
Proof.
  destruct id as [|c id]; [reflexivity|].
  destruct (db !! (c :: id)) as [r|] eqn:Hr.
  - rewrite (server_upvote_store now _ db r); [|discriminate|exact Hr].
    simpl. congruence.
  - unfold Functions.upvoteReview. rewrite Hr. reflexivity.
Qed.

Lemma server_report_error_keeps_store (now : Z) (id : docid) (db : store) :
  status_of (Functions.reportReview now id db).2 <> 200 ->
  (Functions.reportReview now id db).1 = db.
Proof.
  destruct id as [|c id]; [reflexivity|].
  destruct (db !! (c :: id)) as [r|] eqn:Hr.
  - rewrite (server_report_store now _ db r); [|discriminate|exact Hr].
    simpl. congruence.
  - unfold Functions.reportReview. rewrite Hr. reflexivity.
Qed.



(** ** The store under the writing operations, continued *)

Lemma insert_fresh_stored (db : store) (id : docid) (r : Review.t) :
  db !! id = None -> stored_as db (<[id := r]> db) id r.
Proof.
  intros Hfresh. split; [apply lookup_insert_eq|]. split.
  - intros j Hj. apply lookup_insert_ne. congruence.
  - apply map_size_insert_None. exact Hfresh.
Qed.



Lemma helpful_update_content (now : Z) (r : Review.t) :
  same_content r (helpful_update now r).
Proof. unfold same_content. simpl. split_and!; reflexivity. Qed.

Lemma report_update_content (now : Z) (r : Review.t) :
  same_content r (report_update now r).
Proof. unfold same_content. simpl. split_and!; reflexivity. Qed.

(** X5: a helpful mark on an existing review changes, in the whole store,
    the two vote counters and [updatedAt] of that one document: its text,
    ratings, author, [createdAt], [verified] and [reportedCount] stay,
    every other document stays, and no document is added or removed. *)
Theorem helpful_mark_touches_only_votes (now : Z) (reviewId : docid)
    (db : store) (r : Review.t) :
  reviewId <> [] -> db !! reviewId = Some r ->
  let db' := (Functions.upvoteReview now reviewId db).1 in
  (ReviewService.upvoteReview now reviewId db).1 = db'
  /\ (forall j, j <> reviewId -> db' !! j = db !! j)
  /\ dom db' = dom db
  /\ exists u,
       db' !! reviewId = Some u
       /\ same_content r u
       /\ Review.reportedCount u = Review.reportedCount r
       /\ Review.updatedAt u = now.
Proof.
  intros Hid Hr db'. subst db'.
  rewrite (server_upvote_store now reviewId db r Hid Hr),
    (client_upvote_store now reviewId db r Hr). simpl.
  split_and!.
  - reflexivity.
  - intros j Hj. apply lookup_insert_ne. congruence.
  - rewrite dom_insert_L. apply subseteq_union_1_L, singleton_subseteq_l.
    exact (elem_of_dom_2 _ _ _ Hr).
  - exists (helpful_update now r). rewrite lookup_insert_eq.
    split_and!; try reflexivity. apply helpful_update_content.
Qed.

Lemma helpful_mark_touches_only_votes_witness :
  (js "r1" <> [] /\ is_Some (three_reviews !! js "r1"))
  /\ (Functions.upvoteReview 5 (js "r1") three_reviews).1 !! js "r2"
     = three_reviews !! js "r2".
Proof.
  assert (js "r1" <> []) as Hid by discriminate.
  destruct (three_reviews !! js "r1") as [r|] eqn:Hr;
    [|vm_compute in Hr; discriminate Hr].
  split; [split; [exact Hid|eauto]|].
  apply (proj1 (proj2 (helpful_mark_touches_only_votes 5 (js "r1")
                         three_reviews r Hid Hr))).
  discriminate.
Defined.

(** X6: a report on an existing review raises its [reportedCount] by
    exactly 1 and sets [updatedAt]; the votes, the content of the review
    and every other document stay; the server and the client leave the
    same store. *)
Theorem report_raises_only_reportedCount (now : Z) (reviewId : docid)
    (db : store) (r : Review.t) :
  reviewId <> [] -> db !! reviewId = Some r ->
  let db' := (Functions.reportReview now reviewId db).1 in
  (ReviewService.reportReview now reviewId db).1 = db'
  /\ (forall j, j <> reviewId -> db' !! j = db !! j)
  /\ dom db' = dom db
  /\ exists u,
       db' !! reviewId = Some u
       /\ same_content r u
       /\ Review.reportedCount u = Review.reportedCount r + 1
       /\ Review.helpfulVotes u = Review.helpfulVotes r
       /\ Review.totalVotes u = Review.totalVotes r
       /\ Review.updatedAt u = now.
Proof.
  intros Hid Hr db'. subst db'.
  rewrite (server_report_store now reviewId db r Hid Hr),
    (client_report_store now reviewId db r Hr). simpl.
  split_and!.
  - reflexivity.
  - intros j Hj. apply lookup_insert_ne. congruence.
  - rewrite dom_insert_L. apply subseteq_union_1_L, singleton_subseteq_l.
    exact (elem_of_dom_2 _ _ _ Hr).
  - exists (report_update now r). rewrite lookup_insert_eq.
    split_and!; try reflexivity. apply report_update_content.
Qed.

Lemma report_raises_only_reportedCount_witness :
  (js "r2" <> [] /\ is_Some (three_reviews !! js "r2"))
  /\ (ReviewService.reportReview 5 (js "r2") three_reviews).1
     = (Functions.reportReview 5 (js "r2") three_reviews).1.
Proof.
  assert (js "r2" <> []) as Hid by discriminate.
  destruct (three_reviews !! js "r2") as [r|] eqn:Hr;
    [|vm_compute in Hr; discriminate Hr].
  split; [split; [exact Hid|eauto]|].
  exact (proj1 (report_raises_only_reportedCount 5 (js "r2") three_reviews r
                  Hid Hr)).
Defined.

(** X7: helpful marks add up: after one mark for each of [n] times the
    review has [n] more helpful votes and [n] more votes, and as many
    reports as before; none is lost. *)
Theorem helpful_marks_add_up (nows : list Z) (reviewId : docid) (db : store)
    (r : Review.t) :
  db !! reviewId = Some r ->
  exists u,
    upvotes nows reviewId db !! reviewId = Some u
    /\ Review.helpfulVotes u = Review.helpfulVotes r + Z.of_nat (length nows)
    /\ Review.totalVotes u = Review.totalVotes r + Z.of_nat (length nows)
    /\ Review.reportedCount u = Review.reportedCount r
    /\ same_content r u.
Proof.
  revert db r. induction nows as [|now nows IH]; intros db r Hr.
  - exists r. simpl. split_and!; try lia; try assumption.
    unfold same_content. split_and!; reflexivity.
  - unfold upvotes in *. cbn [fold_left].
    rewrite (client_upvote_store now reviewId db r Hr). cbn [fst].
    destruct (IH (<[reviewId := helpful_update now r]> db)
                (helpful_update now r)) as (u & Hu & Hh & Ht & Hc & Hs);
      [apply lookup_insert_eq|].
    exists u. split; [exact Hu|]. cbn [length]. simpl in Hh, Ht, Hc.
    split_and!; try lia.
    pose proof (helpful_update_content now r) as H0.
    unfold same_content in *. destruct_and!. split_and!; congruence.
Qed.

Lemma helpful_marks_add_up_witness :
  is_Some (three_reviews !! js "r3")
  /\ (Review.helpfulVotes <$> upvotes [10; 11] (js "r3") three_reviews
                              !! js "r3") = Some 2.
Proof.
  destruct (three_reviews !! js "r3") as [r|] eqn:Hr;
    [|vm_compute in Hr; discriminate Hr].
  split; [eauto|].
  destruct (helpful_marks_add_up [10; 11] (js "r3") three_reviews r Hr)
    as (u & -> & Hh & _).
  simpl. rewrite Hh. f_equal.
  assert (Review.helpfulVotes <$> three_reviews !! js "r3" = Some 0) as H0
    by (vm_compute; reflexivity).
  rewrite Hr in H0. simpl in H0. injection H0 as ->. reflexivity.
Defined.



Lemma trimStart_fixed (s : jsstring) :
  trimStart s = s <->
  match s with
  | [] => True
  | c :: _ => is_white_space c = false
  end.
Proof.
  destruct s as [|c s]; simpl; [tauto|].
  destruct (is_white_space c) eqn:E; [|tauto].
  split; [|discriminate].
  intros H. pose proof (trimStart_length s) as Hl.
  rewrite H in Hl. simpl in Hl. lia.
Qed.

Lemma trimStart_idempotent (s : jsstring) :
  trimStart (trimStart s) = trimStart s.
Proof.
  induction s as [|c s IH]; [reflexivity|].
  simpl. destruct (is_white_space c) eqn:E; [exact IH|].
  simpl. rewrite E. reflexivity.
Qed.

Lemma trimStart_snoc (l : jsstring) (c : N) :
  is_white_space c = false -> trimStart (l ++ [c]) = trimStart l ++ [c].
Proof.
  intros Hc. induction l as [|x l IH]; simpl; [rewrite Hc; reflexivity|].
  destruct (is_white_space x); [exact IH|reflexivity].
Qed.

Lemma trimEnd_keeps_start (t : jsstring) :
  trimStart t = t -> trimStart (trimEnd t) = trimEnd t.
Proof.
  intros Ht. apply trimStart_fixed in Ht.
  destruct t as [|c t]; [reflexivity|].
  unfold trimEnd. cbn [rev]. rewrite (trimStart_snoc _ _ Ht), rev_app_distr.
  simpl. rewrite Ht. reflexivity.
Qed.

(** [trim] leaves nothing to trim. *)
Lemma trim_idempotent (s : jsstring) : trim (trim s) = trim s.
Proof.
  unfold trim.
  rewrite (trimEnd_keeps_start (trimStart s) (trimStart_idempotent s)).
  unfold trimEnd. rewrite rev_involutive, trimStart_idempotent. reflexivity.
Qed.

(** X9: the record the server builds holds a text with no white space
    left at either end, always an author name that is not empty, never an
    empty e-mail address, and, for a submission that says it is not
    anonymous and names its author, that name with [isAnonymous] false. *)
Theorem server_record_is_normalised (now : Z) (d : reviewData.t)
    (r : Review.t) :
  Functions.reviewToSubmit now d = Some r ->
  trim (Review.reviewText r) = Review.reviewText r
  /\ truthy_str (Review.authorName r) = true
  /\ Review.authorEmail r <> Some []
  /\ (reviewData.isAnonymous d = Some false ->
      truthy_str (reviewData.authorName d) = true ->
      Review.isAnonymous r = false
      /\ Review.authorName r = reviewData.authorName d).
Proof.
  unfold Functions.reviewToSubmit.
  destruct (reviewData.courseCode d), (reviewData.rating d),
    (reviewData.reviewText d); simpl; intros [= <-]; simpl.
  split_and!.
  - apply trim_idempotent.
  - destruct (truthy_bool _); [reflexivity|].
    destruct (truthy_str (reviewData.authorName d)) eqn:E; [exact E|].
    reflexivity.
  - destruct (truthy_bool _); simpl; [discriminate|].
    destruct (reviewData.authorEmail d) as [[|c e]|]; simpl; discriminate.
  - intros -> ->. simpl. split; reflexivity.
Qed.

Lemma server_record_is_normalised_witness :
  let d := with_author (Some (js "Alice")) (Some []) (Some false)
             padded_review in
  exists r,
    Functions.reviewToSubmit 3 d = Some r
    /\ Review.authorName r = Some (js "Alice")
    /\ Review.authorEmail r <> Some [].
Proof.
  intros d. eexists. split; [reflexivity|].
  destruct (server_record_is_normalised 3 d _ eq_refl)
    as (_ & _ & He & Hn).
  split; [|exact He].
  exact (proj2 (Hn eq_refl eq_refl)).
Defined.

Lemma optional_rating_agrees (x : option Z) :
  Functions.optional_rating x = ReviewService.optional_rating x.
Proof.
  unfold Functions.optional_rating, ReviewService.optional_rating, parseInt.
  destruct x as [v|]; simpl; [|reflexivity].
  destruct (v =? 0); reflexivity.
Qed.



(** ** Aggregation, continued *)

Lemma sum_Permutation (xs ys : list Z) : xs ≡ₚ ys -> sum xs = sum ys.
Proof.
  induction 1 as [|x xs ys _ IH|x y xs|xs ys zs _ IH1 _ IH2].
  - reflexivity.
  - rewrite !sum_cons, IH. reflexivity.
  - rewrite !sum_cons. lia.
  - congruence.
Qed.

Lemma mean_tenths_Permutation (xs ys : list Z) :
  xs ≡ₚ ys -> mean_tenths xs = mean_tenths ys.
Proof.
  intros Hp. unfold mean_tenths.
  pose proof (sum_Permutation xs ys Hp) as Hs.
  pose proof (Permutation_length Hp) as Hl.
  destruct xs as [|x xs], ys as [|y ys]; try discriminate; [reflexivity|].
  rewrite Hs, Hl. reflexivity.
Qed.

Lemma truthy_values_cons (field : Review.t -> option Z) (r : Review.t)
    (rs : list Review.t) :
  truthy_values field (r :: rs)
  = match field r with
    | Some v => if v =? 0 then truthy_values field rs
                else v :: truthy_values field rs
    | None => truthy_values field rs
    end.
Proof.
  unfold truthy_values. cbn [omap list_omap].
  destruct (field r) as [v|]; [|reflexivity].
  destruct (v =? 0); reflexivity.
Qed.

(** The [forEach] of [getCourseStats] adds up and counts, for each
    optional rating, the values that are present and not 0. *)
Lemma fold_accumulate_truthy (snapshot : list Review.t) (acc : Totals.t) :
  fold_left Functions.accumulate snapshot acc
  = {| Totals.totalRating :=
         Totals.totalRating acc + sum (Review.rating <$> snapshot);
       Totals.totalDifficulty :=
         Totals.totalDifficulty acc
         + sum (truthy_values Review.difficultyRating snapshot);
       Totals.totalWorkload :=
         Totals.totalWorkload acc
         + sum (truthy_values Review.workloadRating snapshot);
       Totals.totalProfHelpfulness :=
         Totals.totalProfHelpfulness acc
         + sum (truthy_values Review.profHelpfulnessRating snapshot);
       Totals.difficultyCount :=
         Totals.difficultyCount acc
         + Z.of_nat (length (truthy_values Review.difficultyRating snapshot));
       Totals.workloadCount :=
         Totals.workloadCount acc
         + Z.of_nat (length (truthy_values Review.workloadRating snapshot));
       Totals.profHelpfulnessCount :=
         Totals.profHelpfulnessCount acc
         + Z.of_nat
             (length (truthy_values Review.profHelpfulnessRating snapshot)) |}.
Proof.
  revert acc. induction snapshot as [|data snapshot IH]; intros acc.
  - destruct acc. unfold sum. simpl. f_equal; lia.
  - cbn [fold_left]. rewrite IH. clear IH.
    rewrite fmap_cons, sum_cons, !truthy_values_cons.
    unfold Functions.accumulate, truthy_num.
    cbn [Totals.totalRating Totals.totalDifficulty
         Totals.totalWorkload Totals.totalProfHelpfulness
         Totals.difficultyCount Totals.workloadCount
         Totals.profHelpfulnessCount].
    destruct (Review.difficultyRating data) as [d|],
      (Review.workloadRating data) as [w|],
      (Review.profHelpfulnessRating data) as [h|];
      repeat match goal with
        | |- context [?v =? 0] => destruct (Z.eqb_spec v 0)
        end;
      cbn [negb length]; rewrite ?sum_cons; f_equal; lia.
Qed.

Lemma stats_answer_truthy (courseCode : jsstring) (snapshot : list Review.t) :
  Functions.stats_answer courseCode snapshot
  = {| CourseStats.courseCode := courseCode;
       CourseStats.totalReviews := Z.of_nat (length snapshot);
       CourseStats.averageRating := mean_tenths (Review.rating <$> snapshot);
       CourseStats.averageDifficulty :=
         mean_tenths (truthy_values Review.difficultyRating snapshot);
       CourseStats.averageWorkload :=
         mean_tenths (truthy_values Review.workloadRating snapshot);
       CourseStats.averageProfHelpfulness :=
         mean_tenths (truthy_values Review.profHelpfulnessRating snapshot) |}.
Proof.
  destruct snapshot as [|data snapshot]; [reflexivity|].
  unfold Functions.stats_answer. rewrite fold_accumulate_truthy.
  cbn [Totals.totalRating Totals.totalDifficulty
       Totals.totalWorkload Totals.totalProfHelpfulness
       Totals.difficultyCount Totals.workloadCount
       Totals.profHelpfulnessCount].
  rewrite !Z.add_0_l, !average_or_zero_mean.
  f_equal. rewrite fmap_cons. unfold mean_tenths. cbn [length].
  rewrite length_fmap. reflexivity.
Qed.







Lemma mean_tenths_within_scale (values : list Z) :
  values <> [] ->
  Forall (λ v, 1 <= v <= 5) values ->
  100 * Z.of_nat (length values) < 2 ^ 53 ->
  10 <= mean_tenths values <= 50.
Proof.
  intros Hne Hv Hlen. pose proof (sum_bounds values Hv) as Hsum.
  destruct values as [|v values]; [congruence|].
  unfold mean_tenths.
  set (a := sum (v :: values)) in *.
  set (b := Z.of_nat (length (v :: values))) in *.
  assert (0 < b) as Hb by (unfold b; simpl; lia).
  destruct (average_round_half_up a b) as [[H1 H2] H3]; [lia|lia|lia|].
  assert (10 <= Spec.round_half_up a b) as Hlo.
  { unfold Spec.round_half_up. apply Z.div_le_lower_bound; lia. }
  assert (Spec.round_half_up a b <= 50) as Hhi.
  { unfold Spec.round_half_up.
    assert ((20 * a + b) / (2 * b) < 51); [|lia].
    apply Z.div_lt_upper_bound; lia. }
  split; [|lia].
  destruct (decide ((20 * a + b) mod (2 * b) = 0)) as [Htie|Hno];
    [|rewrite (H3 Hno); lia].
  assert (11 <= Spec.round_half_up a b); [|lia].
  unfold Spec.tie, Spec.round_half_up in *.
  pose proof (Z.div_mod (20 * a + b) (2 * b) ltac:(lia)) as E.
  rewrite Htie, Z.add_0_r in E.
  set (N := (20 * a + b) / (2 * b)) in *.
  destruct (decide (N = 10)) as [E10|]; [|lia].
  rewrite E10 in E. lia.
Qed.



(** X15: an exact mean that has one decimal place is answered as it is:
    when ten times the sum of the ratings is [q] times their number, the
    server and the client answer the average [q] tenths, with no rounding
    error from the division. *)
Theorem one_decimal_mean_is_exact (courseCode : jsstring)
    (snapshot : list (docid * Review.t)) (q : Z) :
  snapshot <> [] ->
  Forall rating_in_range snapshot.*2 ->
  100 * Z.of_nat (length snapshot) < 2 ^ 53 ->
  10 * sum (Review.rating <$> snapshot.*2) = q * Z.of_nat (length snapshot) ->
  ReviewList.averageRating (Functions.reviews_answer snapshot) = q
  /\ ReviewList.averageRating (ReviewService.reviews_answer snapshot) = q
  /\ CourseStats.averageRating (Functions.stats_answer courseCode snapshot.*2)
     = q.
Proof.
  intros Hne Hrange Hlen Hq.
  rewrite server_reviews_answer_mean, client_reviews_answer_mean,
    stats_answer_truthy.
  cbn [ReviewList.averageRating CourseStats.averageRating].
  assert (mean_tenths (Review.rating <$> snapshot.*2) = q) as E; [|auto].
  pose proof (sum_bounds (Review.rating <$> snapshot.*2)) as Hsum.
  rewrite !length_fmap in Hsum.
  specialize (Hsum ltac:(apply Forall_fmap; exact Hrange)).
  destruct snapshot as [|doc snapshot]; [congruence|].
  rewrite !fmap_cons in *. unfold mean_tenths. cbn [length] in *.
  rewrite !length_fmap.
  set (a := sum _) in *. set (b := Z.of_nat (S (length snapshot))) in *.
  assert (0 < b) as Hb by (unfold b; lia).
  destruct (average_round_half_up a b) as [_ H3]; [lia|lia|lia|].
  assert (20 * a + b = b * (2 * q + 1)) as E1 by lia.
  rewrite H3.
  - unfold Spec.round_half_up. rewrite E1.
    replace (b * (2 * q + 1)) with (q * (2 * b) + b) by lia.
    rewrite Z.div_add_l by lia. rewrite Z.div_small by lia. lia.
  - unfold Spec.tie. rewrite E1.
    replace (b * (2 * q + 1)) with (b + q * (2 * b)) by lia.
    rewrite Z.mod_add by lia. rewrite Z.mod_small by lia. lia.
Qed.

Lemma one_decimal_mean_is_exact_witness :
  let snapshot := where_courseCode (js "CASCS131") three_reviews in
  (snapshot <> []
   /\ Forall rating_in_range snapshot.*2
   /\ 100 * Z.of_nat (length snapshot) < 2 ^ 53
   /\ 10 * sum (Review.rating <$> snapshot.*2)
      = 40 * Z.of_nat (length snapshot))
  /\ ReviewList.averageRating (Functions.reviews_answer snapshot) = 40.
Proof.
  intros snapshot.
  assert (snapshot <> []) as Hne by (vm_compute; discriminate).
  assert (Forall rating_in_range snapshot.*2) as Hrange.
  { apply where_courseCode_Forall, reachable_rating_in_range,
      three_reviews_reachable. }
  assert (100 * Z.of_nat (length snapshot) < 2 ^ 53) as Hlen
    by (vm_compute; reflexivity).
  assert (10 * sum (Review.rating <$> snapshot.*2)
          = 40 * Z.of_nat (length snapshot)) as Hq
    by (vm_compute; reflexivity).
  split; [split_and!; assumption|].
  exact (proj1 (one_decimal_mean_is_exact (js "CASCS131") snapshot 40 Hne Hrange
                  Hlen Hq)).
Defined.

#[local] Instance helpfulVotes_desc_total : Total helpfulVotes_desc.
Proof. intros x y. unfold helpfulVotes_desc. lia. Qed.

#[local] Instance helpfulVotes_desc_transitive : Transitive helpfulVotes_desc.
Proof. intros x y z. unfold helpfulVotes_desc. lia. Qed.

(** X16: [getReviews] answers exactly the reviews of the course, each once
    under its id, with those of more helpful votes first, and their
    number as [totalReviews]. *)
Theorem getReviews_lists_the_course (courseCode : jsstring) (db : store) :
  courseCode <> [] ->
  exists data,
    Functions.getReviews (Some courseCode) db = Json 200 data
    /\ (forall id r,
          (id, r) ∈ ReviewList.reviews data
          <-> db !! id = Some r /\ Review.courseCode r = courseCode)
    /\ NoDup (ReviewList.reviews data).*1
    /\ StronglySorted helpfulVotes_desc (ReviewList.reviews data)
    /\ ReviewList.totalReviews data
       = Z.of_nat (length (ReviewList.reviews data)).
Proof.
  intros Hcode. unfold Functions.getReviews.
  destruct courseCode as [|c courseCode]; [congruence|].
  set (code := c :: courseCode).
  set (snapshot := orderBy_helpfulVotes_desc (where_courseCode code db)).
  assert (snapshot ≡ₚ where_courseCode code db) as Hp
    by apply merge_sort_Permutation.
  eexists. split; [reflexivity|].
  rewrite server_reviews_answer_mean.
  cbn [ReviewList.reviews ReviewList.totalReviews].
  split_and!.
  - intros id r. rewrite Hp. apply where_courseCode_elem.
  - rewrite Hp. unfold where_courseCode.
    apply (NoDup_fmap_fst _).
    + intros k x y Hx Hy.
      apply list_elem_of_filter in Hx as [_ Hx].
      apply list_elem_of_filter in Hy as [_ Hy].
      apply elem_of_map_to_list in Hx, Hy. congruence.
    + apply NoDup_filter, NoDup_map_to_list.
  - apply (StronglySorted_merge_sort _).
  - reflexivity.
Qed.

Lemma getReviews_lists_the_course_witness :
  js "CASCS131" <> []
  /\ match Functions.getReviews (Some (js "CASCS131")) three_reviews with
     | Json _ data => ReviewList.totalReviews data = 3
     | HttpError _ _ => False
     end.
Proof.
  assert (js "CASCS131" <> []) as Hcode by discriminate.
  split; [exact Hcode|].
  destruct (getReviews_lists_the_course (js "CASCS131") three_reviews Hcode)
    as (data & E & _ & _ & _ & Ht).
  rewrite E, Ht. clear Ht. revert E. vm_compute. intros [= <-]. reflexivity.
Defined.

Lemma where_courseCode_insert_fresh (courseCode : jsstring) (db : store)
    (id : docid) (r : Review.t) :
  db !! id = None ->
  where_courseCode courseCode (<[id := r]> db)
  ≡ₚ (if decide (Review.courseCode r = courseCode) then [(id, r)] else [])
     ++ where_courseCode courseCode db.
Proof.
  intros Hfresh. unfold where_courseCode.
  rewrite (map_to_list_insert db id r Hfresh), filter_cons. simpl.
  destruct (decide (Review.courseCode r = courseCode)); reflexivity.
Qed.

Lemma orderBy_Permutation (l : list (docid * Review.t)) :
  orderBy_helpfulVotes_desc l ≡ₚ l.
Proof. apply merge_sort_Permutation. Qed.

Lemma course_answer_Permutation (snapshot snapshot' : list (docid * Review.t)) :
  snapshot ≡ₚ snapshot' ->
  ReviewList.totalReviews (ReviewService.reviews_answer snapshot)
  = ReviewList.totalReviews (ReviewService.reviews_answer snapshot')
  /\ ReviewList.averageRating (ReviewService.reviews_answer snapshot)
     = ReviewList.averageRating (ReviewService.reviews_answer snapshot').
Proof.
  intros Hp. rewrite !client_reviews_answer_mean.
  cbn [ReviewList.totalReviews ReviewList.averageRating].
  split; [rewrite (Permutation_length Hp); reflexivity|].
  apply mean_tenths_Permutation. rewrite Hp. reflexivity.
Qed.

Lemma client_submit_record (now : Z) (d : reviewData.t) (r : Review.t)
    (c : jsstring) :
  ReviewService.reviewToSubmit now d = Some r ->
  reviewData.courseCode d = Some c ->
  Review.courseCode r = c.
Proof.
  unfold ReviewService.reviewToSubmit. intros Hr Hc. rewrite Hc in Hr.
  destruct (reviewData.rating d), (reviewData.reviewText d);
    simplify_eq/=. reflexivity.
Qed.



(** ** The form, the hook and the page *)

Lemma validateForm_true (formData : FormData.t) :
  ReviewForm.validateForm formData = true <->
  FormData.rating formData <> 0
  /\ (20 <= length (trim (FormData.reviewText formData)))%nat
  /\ (FormData.isAnonymous formData = false ->
      trim (FormData.authorName formData) <> []).
Proof.
  unfold ReviewForm.validateForm, ReviewForm.validateForm_errors.
  destruct (Z.eqb_spec (FormData.rating formData) 0) as [E|E].
  { split; [discriminate|]. intros (H & _). contradiction. }
  destruct (trim (FormData.reviewText formData)) as [|c t] eqn:Et.
  { split; [discriminate|]. intros (_ & H & _). simpl in H. lia. }
  destruct (Z.ltb_spec (Z.of_nat (length (c :: t))) 20) as [Hl|Hl].
  { split; [discriminate|]. intros (_ & H & _). lia. }
  assert (20 <= length (c :: t))%nat as Hl' by lia.
  destruct (FormData.isAnonymous formData); simpl.
  - split; [|reflexivity]. intros _.
    split_and!; [assumption|exact Hl'|discriminate].
  - destruct (trim (FormData.authorName formData)) as [|x name]; simpl.
    + split; [discriminate|]. intros (_ & _ & H). destruct (H eq_refl eq_refl).
    + split; [|reflexivity]. intros _.
      split_and!; [assumption|exact Hl'|discriminate].
Qed.

(** X18: a form that passes [validateForm], for a course with a code and
    with a rating the selector offers (0 to 5), is handed to [onSubmit] as
    a submission that the client service accepts, and that the server
    would accept as well. *)
Theorem valid_form_is_accepted (courseCode courseName : jsstring)
    (formData : FormData.t) :
  ReviewForm.validateForm formData = true ->
  courseCode <> [] ->
  0 <= FormData.rating formData <= 5 ->
  exists d,
    ReviewForm.handleSubmit courseCode courseName formData = Some d
    /\ ReviewService.submitReview_guard d = None
    /\ Functions.submitReview_guard d = None.
Proof.
  intros Hvalid Hcode Hrange.
  exists (ReviewForm.submission courseCode courseName formData).
  unfold ReviewForm.handleSubmit. rewrite Hvalid.
  split; [reflexivity|].
  apply validateForm_true in Hvalid as (Hr & Ht & _).
  assert (Spec.accepted (ReviewForm.submission courseCode courseName formData))
    as Hacc.
  { unfold Spec.accepted, Spec.courseCode_missing, Spec.rating_invalid,
      Spec.reviewText_invalid. simpl. split_and!; [|lia|lia].
    intros [H|H]; congruence. }
  split; [|apply server_guard_accepts, Hacc].
  apply client_guard_accepts. destruct Hacc as (Hc & Hrt & _).
  split_and!; try assumption.
  exists (FormData.reviewText formData). split; [reflexivity|].
  pose proof (trim_length (FormData.reviewText formData)). lia.
Qed.

Lemma valid_form_is_accepted_witness :
  let formData :=
    FormData.mk 4 (js "  Clear lectures and fair exams.  ") 0 3 0 [] [] []
      true in
  (ReviewForm.validateForm formData = true
   /\ js "CASCS131" <> [] /\ 0 <= FormData.rating formData <= 5)
  /\ is_Some (ReviewForm.handleSubmit (js "CASCS131") (js "Combinatorics")
                formData).
Proof.
  intros formData.
  assert (ReviewForm.validateForm formData = true) as Hv
    by (vm_compute; reflexivity).
  assert (js "CASCS131" <> []) as Hc by discriminate.
  assert (0 <= FormData.rating formData <= 5) as Hr by (simpl; lia).
  split; [split; [exact Hv|split; [exact Hc|exact Hr]]|].
  destruct (valid_form_is_accepted (js "CASCS131") (js "Combinatorics")
              formData Hv Hc Hr) as (d & -> & _).
  eauto.
Defined.

(** X19: what the client service makes of a form: the record is marked
    anonymous whether the box is ticked or not, so that the display shows
    the badge and never the name; with the box unticked the name and the
    address typed are stored all the same; the text is stored as typed,
    white space included; and an optional rating left at 0 is stored as
    null. *)
Theorem form_submission_is_shown_anonymous (now : Z)
    (courseCode courseName : jsstring) (formData : FormData.t) :
  exists r,
    ReviewService.reviewToSubmit now
      (ReviewForm.submission courseCode courseName formData) = Some r
    /\ Review.isAnonymous r = true
    /\ ReviewDisplay.review_author r = ReviewDisplay.AnonymousBadge
    /\ Review.authorName r
       = (if FormData.isAnonymous formData then Some (js "Anonymous")
          else Some (FormData.authorName formData))
    /\ Review.authorEmail r
       = (if FormData.isAnonymous formData then None
          else Some (FormData.authorEmail formData))
    /\ Review.reviewText r = FormData.reviewText formData
    /\ Review.difficultyRating r
       = (if FormData.difficultyRating formData =? 0 then None
          else Some (FormData.difficultyRating formData))
    /\ Review.workloadRating r
       = (if FormData.workloadRating formData =? 0 then None
          else Some (FormData.workloadRating formData))
    /\ Review.profHelpfulnessRating r
       = (if FormData.profHelpfulnessRating formData =? 0 then None
          else Some (FormData.profHelpfulnessRating formData)).
Proof.
  eexists. split; [reflexivity|].
  unfold ReviewDisplay.review_author, ReviewService.optional_rating. simpl.
  destruct (FormData.isAnonymous formData); simpl;
    destruct (FormData.difficultyRating formData =? 0),
      (FormData.workloadRating formData =? 0),
      (FormData.profHelpfulnessRating formData =? 0); simpl;
    split_and!; reflexivity.
Qed.

Lemma markHelpful_local (reviewId : docid) (db : store) (r : Review.t)
    (now : Z) (reviews : list (docid * Review.t)) :
  db !! reviewId = Some r ->
  votes_in_sync db reviews ->
  votes_in_sync (<[reviewId := helpful_update now r]> db)
    ((λ review : docid * Review.t,
        if decide (review.1 = reviewId)
        then (review.1, local_helpful review.2)
        else review) <$> reviews).
Proof.
  intros Hr Hsync. unfold votes_in_sync in *.
  apply Forall_fmap. eapply Forall_impl; [exact Hsync|].
  intros [id x] (u & Hu & Hh & Ht). simpl in *.
  destruct (decide (id = reviewId)) as [->|Hne]; simpl.
  - exists (helpful_update now r). rewrite lookup_insert_eq.
    rewrite Hr in Hu. injection Hu as ->. simpl.
    split_and!; [reflexivity|lia|lia].
  - exists u. rewrite lookup_insert_ne by congruence. auto.
Qed.


Lemma fetched_votes_in_sync (courseCode : jsstring) (db : store)
    (st : useReviews.t) :
  votes_in_sync db (useReviews.reviews (useReviews.fetchReviews courseCode db st)).
Proof.
  unfold useReviews.fetchReviews, ReviewService.getReviewsByCourse.
  rewrite client_reviews_answer_mean. cbn [useReviews.reviews ReviewList.reviews].
  unfold votes_in_sync. rewrite orderBy_Permutation.
  apply Forall_forall. intros [id r] Hin.
  apply where_courseCode_elem in Hin as [Hr _]. exists r. auto.
Qed.




Lemma ReviewDisplay_stars (k : Z) :
  0 <= k <= 5 ->
  ReviewDisplay.renderStars k
  = replicate (Z.to_nat k) Filled ++ replicate (Z.to_nat (5 - k)) Empty.
Proof.
  intros Hk.
  assert (k = 0 \/ k = 1 \/ k = 2 \/ k = 3 \/ k = 4 \/ k = 5) as Hcases by lia.
  destruct Hcases as [->|[->|[->|[->|[->| ->]]]]]; reflexivity.
Qed.

(** X22: a card always shows five stars; for an average between 0.0 and
    5.0 they are as many filled stars as the average has whole units, then
    a half star if its decimal is 5 or more, then empty stars. *)
Theorem CourseCard_stars (rating : Z) :
  length (CourseCard.renderStars rating) = 5%nat
  /\ (0 <= rating <= 50 ->
      let half := if 5 <=? rating mod 10 then [Half] else [] in
      CourseCard.renderStars rating
      = replicate (Z.to_nat (rating / 10)) Filled ++ half
        ++ replicate (5 - Z.to_nat (rating / 10) - length half) Empty).
Proof.
  split; [reflexivity|].
  intros Hr half. subst half. unfold CourseCard.renderStars.
  pose proof (Z.div_mod rating 10 ltac:(lia)) as E.
  pose proof (Z.mod_pos_bound rating 10 ltac:(lia)) as B.
  set (k := rating / 10) in *. set (m := rating mod 10) in *.
  assert (k = 0 \/ k = 1 \/ k = 2 \/ k = 3 \/ k = 4 \/ k = 5 /\ m = 0)
    as Hcases by lia.
  clearbody k m.
  destruct Hcases as [->|[->|[->|[->|[->|[-> ->]]]]]];
    try destruct (5 <=? m); reflexivity.
Qed.

Lemma CourseCard_stars_witness :
  0 <= 45 <= 50
  /\ CourseCard.renderStars 45 = [Filled; Filled; Filled; Filled; Half].
Proof.
  assert (0 <= 45 <= 50) as Hr by lia.
  split; [exact Hr|].
  rewrite (proj2 (CourseCard_stars 45) Hr). reflexivity.
Defined.



Lemma reviewsMap_fold (courseCodes : list jsstring) (db : store)
    (m : gmap jsstring ReviewList.t) (courseCode : jsstring) :
  fold_left
    (λ (m : gmap jsstring ReviewList.t) (courseCode : jsstring),
       match ReviewService.getReviewsByCourse courseCode db with
       | Resolved data => <[courseCode := data]> m
       | Rejected _ =>
           <[courseCode := {| ReviewList.reviews := [];
                              ReviewList.averageRating := 0;
                              ReviewList.totalReviews := 0 |}]> m
       end)
    courseCodes m !! courseCode
  = if decide (courseCode ∈ courseCodes)
    then Some (course_answer courseCode db)
    else m !! courseCode.
Proof.
  revert m. induction courseCodes as [|c courseCodes IH]; intros m.
  - rewrite decide_False by apply not_elem_of_nil. reflexivity.
  - cbn [fold_left]. rewrite IH.
    unfold ReviewService.getReviewsByCourse at 1.
    fold (course_answer c db).
    destruct (decide (courseCode ∈ courseCodes)) as [Hin|Hnin].
    + rewrite decide_True by (right; exact Hin). reflexivity.
    + destruct (decide (courseCode = c)) as [->|Hne].
      * rewrite decide_True by left. apply lookup_insert_eq.
      * rewrite decide_False
          by (intros Hin; apply elem_of_cons in Hin as [?|?]; auto).
        apply lookup_insert_ne. congruence.
Qed.

(** X24: after the recommendations are fetched, the map of the page holds
    for every recommended course what [getReviewsByCourse] answers for it,
    also when a course is recommended twice, and nothing for any other
    course, whose card then shows an average of 0 and no review. *)
Theorem reviewsMap_holds_each_course (courseCodes : list jsstring)
    (db : store) (courseCode : jsstring) :
  (courseCode ∈ courseCodes ->
   CourseRecommender.reviewsMap courseCodes db !! courseCode
   = Some (course_answer courseCode db))
  /\ (courseCode ∉ courseCodes ->
      CourseRecommender.reviewsMap courseCodes db !! courseCode = None
      /\ CourseRecommender.card_rating
           (CourseRecommender.reviewsMap courseCodes db) courseCode = (0, 0)).
Proof.
  unfold CourseRecommender.reviewsMap, CourseRecommender.card_rating.
  rewrite reviewsMap_fold. split; intros H.
  - rewrite decide_True by exact H. reflexivity.
  - rewrite decide_False by exact H. rewrite lookup_empty. split; reflexivity.
Qed.

Lemma reviewsMap_holds_each_course_witness :
  let codes := [js "CASCS131"; js "CASCS132"; js "CASCS131"] in
  js "CASCS131" ∈ codes
  /\ (ReviewList.totalReviews <$>
        CourseRecommender.reviewsMap codes three_reviews !! js "CASCS131")
     = Some 3.
Proof.
  intros codes.
  assert (js "CASCS131" ∈ codes) as Hin by left.
  split; [exact Hin|].
  rewrite (proj1 (reviewsMap_holds_each_course codes three_reviews
                    (js "CASCS131")) Hin).
  vm_compute. reflexivity.
Defined.




